(** * Media intelligence dashboard (streamlit3app.py)

    A shallow embedding of the three pieces of logic of the script:
    - the column-name normalization and the cleaning of the uploaded frame
      (lines 63-75);
    - the insight requester [generate_insights_from_gemini] (lines 86-138);
    - the chart tables, among them [top_5_locations] (lines 148-271).

    Python [str] values are byte strings (UTF-8): [str.lower] and [str.strip]
    are modelled on the ASCII range, other bytes are left as they are.
    pandas, requests and the operating system are not part of the script; their
    value-level parsers and the outcome of the HTTP call are taken as
    parameters. *)

From Stdlib Require Import Bool Arith ZArith QArith Lia List.
From Stdlib Require Import Ascii String DecimalString.
From Stdlib Require Import Permutation Sorted.
Import ListNotations.

Close Scope Q_scope.
Open Scope string_scope.

(* ===================================================================== *)
(** * Python string operations used by the script *)
(* ===================================================================== *)

Module PyStr.

(** [str.isspace] on one ASCII character: tab, line feed, vertical tab, form
    feed, carriage return, the four separators 0x1c-0x1f and the space. *)
Definition is_space (c : ascii) : bool :=
  let n := nat_of_ascii c in
  (((9 <=? n) && (n <=? 13)) || ((28 <=? n) && (n <=? 32)))%nat.

Definition is_upper (c : ascii) : bool :=
  let n := nat_of_ascii c in ((65 <=? n) && (n <=? 90))%nat.

Definition lower_char (c : ascii) : ascii :=
  if is_upper c then ascii_of_nat (nat_of_ascii c + 32) else c.

(** [s.lower()] *)
Fixpoint lower (s : string) : string :=
  match s with
  | EmptyString => EmptyString
  | String c s' => String (lower_char c) (lower s')
  end.

(** [s.lstrip()] *)
Fixpoint lstrip (s : string) : string :=
  match s with
  | EmptyString => EmptyString
  | String c s' => if is_space c then lstrip s' else s
  end.

(** [s.rstrip()]: a character is dropped when it is a space and all that
    follows it was dropped. *)
Fixpoint rstrip (s : string) : string :=
  match s with
  | EmptyString => EmptyString
  | String c s' =>
      match rstrip s' with
      | EmptyString => if is_space c then EmptyString else String c EmptyString
      | r => String c r
      end
  end.

(** [s.strip()] *)
Definition strip (s : string) : string := rstrip (lstrip s).

(** [s.startswith(p)] *)
Definition startswith (p s : string) : bool := String.prefix p s.

(** [s.replace(old, new)] for a non-empty [old]: the occurrences are found
    from the left and do not overlap.  [skip] counts the characters of a
    matched occurrence that are still to be passed over. *)
Fixpoint replace_from (old new : string) (skip : nat) (s : string) : string :=
  match s with
  | EmptyString => EmptyString
  | String c s' =>
      match skip with
      | S k => replace_from old new k s'
      | O =>
          if startswith old s
          then new ++ replace_from old new (String.length old - 1) s'
          else String c (replace_from old new 0 s')
      end
  end.

Definition replace (old new s : string) : string := replace_from old new 0 s.

(** [old in s] *)
Fixpoint contains (old s : string) : bool :=
  startswith old s ||
  match s with
  | EmptyString => false
  | String _ s' => contains old s'
  end.

(** [s.split(sep)] on a one-character separator. *)
Fixpoint split (sep : ascii) (s : string) : list string :=
  match s with
  | EmptyString => [EmptyString]
  | String c s' =>
      if Ascii.eqb c sep then EmptyString :: split sep s'
      else match split sep s' with
           | [] => [String c EmptyString]
           | w :: ws => String c w :: ws
           end
  end.

(** truthiness of a string: [bool(s)] *)
Definition truthy (s : string) : bool :=
  match s with EmptyString => false | _ => true end.

(** [str(n)] for an integer. *)
Definition str_Z (z : Z) : string := NilZero.string_of_int (Z.to_int z).

(** every character of [s] satisfies [p] *)
Fixpoint all_chars (p : ascii -> bool) (s : string) : bool :=
  match s with
  | EmptyString => true
  | String c s' => p c && all_chars p s'
  end.

(** ** Measures used to reason about [replace] *)

(** [a] and [b] differ at a position both have. *)
Fixpoint clash (a b : string) : bool :=
  match a, b with
  | String x a', String y b' => negb (Ascii.eqb x y) || clash a' b'
  | _, _ => false
  end.

(** No occurrence of [old] can start inside a copy of [q]. *)
Fixpoint no_hit_inside (old q : string) : bool :=
  match q with
  | EmptyString => true
  | String _ q' => clash old q && no_hit_inside old q'
  end.

(** Wherever [new] is written for [old], a tail of [q] read from there on
    either fails on [new] or already begins [old]. *)
Fixpoint read_back (old new q : string) : bool :=
  match q with
  | EmptyString => true
  | String _ q' => (clash new q || startswith q old) && read_back old new q'
  end.

(** The first character is not white space. *)
Definition starts_clean (s : string) : bool :=
  match s with
  | EmptyString => true
  | String c _ => negb (is_space c)
  end.

(** The last character is not white space. *)
Fixpoint ends_clean (s : string) : bool :=
  match s with
  | EmptyString => true
  | String c EmptyString => negb (is_space c)
  | String _ s' => ends_clean s'
  end.

Definition not_upper (c : ascii) : bool := negb (is_upper c).
Definition not_blank (c : ascii) : bool := negb (Ascii.eqb c " ").

End PyStr.

(* ===================================================================== *)
(** * The fragment of pandas the script relies on *)
(* ===================================================================== *)

Module Pandas.

(** The calendar part of a pandas [Timestamp] (the only part that
    [strftime('%Y-%m-%d')] reads).  pandas keeps years within 1677..2262. *)
Record Timestamp := { year : nat; month : nat; day : nat }.

(** A value of a frame: missing ([NaN], also [NaT]), an [int64], a finite
    [float64] (as an exact rational), a [str], or a datetime. *)
Inductive Cell :=
| NaN
| Int (z : Z)
| Float (q : Q)
| Str (s : string)
| Datetime (t : Timestamp).

Definition Series := list Cell.

(** A frame is the ordered list of its labelled columns; [df[label]] reads
    the first column with that label.  (Where a label is repeated pandas
    hands out a frame instead of a column, on which the coercions of lines
    67 and 73 raise; such uploads, like non-finite numbers, end in the
    [except] branch of line 80 and leave no cleaned frame.  They are not
    represented here.) *)
Definition DataFrame := list (string * Series).

Definition columns (df : DataFrame) : list string := map fst df.

(** [label in df.columns] *)
Definition has_column (label : string) (df : DataFrame) : bool :=
  existsb (String.eqb label) (columns df).

(** [df[label]] ([None] is pandas' [KeyError]) *)
Fixpoint get_column (label : string) (df : DataFrame) : option Series :=
  match df with
  | [] => None
  | (c, s) :: df' => if String.eqb label c then Some s else get_column label df'
  end.

(** [df[label] = s]: the column is replaced where it stands, or added last. *)
Fixpoint set_column (label : string) (s : Series) (df : DataFrame) : DataFrame :=
  match df with
  | [] => [(label, s)]
  | (c, s') :: df' =>
      if String.eqb label c then (c, s) :: df'
      else (c, s') :: set_column label s df'
  end.

(** [len(df)] *)
Definition nrows (df : DataFrame) : nat :=
  match df with
  | [] => 0
  | (_, s) :: _ => List.length s
  end.

(** [df.columns = [f(col) for col in df.columns]] *)
Definition rename_columns (f : string -> string) (df : DataFrame) : DataFrame :=
  map (fun cs => (f (fst cs), snd cs)) df.

Definition notna (c : Cell) : bool :=
  match c with NaN => false | _ => true end.

(** Boolean indexing of one column: the values whose mask entry is [true]. *)
Fixpoint select (mask : list bool) (s : Series) : Series :=
  match mask, s with
  | b :: mask', c :: s' => if b then c :: select mask' s' else select mask' s'
  | _, _ => []
  end.

(** Boolean indexing of a frame, [df[mask]]. *)
Definition select_rows (mask : list bool) (df : DataFrame) : DataFrame :=
  map (fun cs => (fst cs, select mask (snd cs))) df.

(** [df.dropna(subset=[label])] *)
Definition dropna (label : string) (df : DataFrame) : DataFrame :=
  match get_column label df with
  | Some s => select_rows (map notna s) df
  | None => df
  end.

(** ** Dates *)

Definition digit (n : nat) : ascii := ascii_of_nat (48 + n mod 10).

Definition pad2 (n : nat) : string :=
  String (digit (n / 10)) (String (digit n) EmptyString).

Definition pad4 (n : nat) : string :=
  String (digit (n / 1000)) (String (digit (n / 100)) (pad2 n)).

(** [t.strftime('%Y-%m-%d')] *)
Definition strftime (t : Timestamp) : string :=
  pad4 (year t) ++ "-" ++ pad2 (month t) ++ "-" ++ pad2 (day t).

Definition is_digit (c : ascii) : bool :=
  let n := nat_of_ascii c in ((48 <=? n) && (n <=? 57))%nat.

(** The shape [YYYY-MM-DD]: ten characters, digits around two hyphens. *)
Definition is_iso_date (s : string) : bool :=
  match s with
  | String y1 (String y2 (String y3 (String y4 (String h1
      (String m1 (String m2 (String h2 (String d1 (String d2 EmptyString))))))))) =>
      is_digit y1 && is_digit y2 && is_digit y3 && is_digit y4
      && Ascii.eqb h1 "-" && is_digit m1 && is_digit m2
      && Ascii.eqb h2 "-" && is_digit d1 && is_digit d2
  | _ => false
  end.

(** ** Numbers *)

(** [float -> int] of [astype(int)]: the fraction is cut off, towards zero. *)
Definition astype_int (q : Q) : Z := Z.quot (Qnum q) (Zpos (Qden q)).

(** [fillna(0)] on one value of a float column *)
Definition fillna0 (v : option Q) : Q :=
  match v with Some q => q | None => inject_Z 0 end.

Definition cell_eqb (a b : Cell) : bool :=
  match a, b with
  | NaN, NaN => true
  | Int x, Int y => Z.eqb x y
  | Int x, Float q | Float q, Int x => Qeq_bool (inject_Z x) q
  | Float p, Float q => Qeq_bool p q
  | Str s, Str t => String.eqb s t
  | Datetime s, Datetime t =>
      Nat.eqb (year s) (year t) && Nat.eqb (month s) (month t)
      && Nat.eqb (day s) (day t)
  | _, _ => false
  end.

(** The integer held by a cell of an integer column. *)
Definition int_value (c : Cell) : Z :=
  match c with Int z => z | _ => 0%Z end.

(** ** Sorting and grouping *)

Section Sorting.
Context {A : Type} (leb : A -> A -> bool).

(** Insertion keeps an element in front of the ones it does not follow,
    so equal keys stay in their first order (a stable sort). *)
Fixpoint insert_sorted (x : A) (l : list A) : list A :=
  match l with
  | [] => [x]
  | y :: l' => if leb x y then x :: l else y :: insert_sorted x l'
  end.

Fixpoint stable_sort (l : list A) : list A :=
  match l with
  | [] => []
  | x :: l' => insert_sorted x (stable_sort l')
  end.
End Sorting.

(** One more value for key [k]: added to the group of [k], or a new group
    after the present ones. *)
Fixpoint add_group (k : Cell) (v : Z) (acc : list (Cell * Z)) : list (Cell * Z) :=
  match acc with
  | [] => [(k, v)]
  | (k', v') :: acc' =>
      if cell_eqb k k' then (k', (v' + v)%Z) :: acc'
      else (k', v') :: add_group k v acc'
  end.

(** The groups of a keyed column in the order the keys first appear, each
    with the sum of its values; rows with a missing key are left out
    ([dropna=True]). *)
Definition group_sums (kvs : list (Cell * Z)) : list (Cell * Z) :=
  fold_left (fun acc kv => if notna (fst kv) then add_group (fst kv) (snd kv) acc else acc)
            kvs [].

(** [Series.unique()] after [dropna()]: the distinct values, first
    appearance first. *)
Definition add_key (k : Cell) (acc : list Cell) : list Cell :=
  if existsb (cell_eqb k) acc then acc else acc ++ [k].

Definition unique (s : Series) : list Cell :=
  fold_left (fun acc k => if notna k then add_key k acc else acc) s [].


(** Larger values first. *)
Definition by_value_desc (a b : Cell * Z) : bool := (snd b <=? snd a)%Z.

Section Tables.
(** The order in which pandas sorts group keys. *)
Variable key_leb : Cell -> Cell -> bool.

(** [df.groupby(by)[col].sum().reset_index()] *)
Definition groupby_sum (by_ col : string) (df : DataFrame) : option (list (Cell * Z)) :=
  match get_column by_ df, get_column col df with
  | Some ks, Some vs =>
      Some (stable_sort (fun a b => key_leb (fst a) (fst b))
                        (group_sums (combine ks (map int_value vs))))
  | _, _ => None
  end.

(** [df[col].value_counts().reset_index()]: the number of rows per value,
    most frequent first. *)
Definition value_counts (col : string) (df : DataFrame) : option (list (Cell * Z)) :=
  match get_column col df with
  | Some ks =>
      Some (stable_sort by_value_desc
                        (group_sums (map (fun k => (k, 1%Z)) ks)))
  | None => None
  end.
End Tables.

(** [t.sort_values(by=value, ascending=True)] *)
Definition sort_values_ascending (t : list (Cell * Z)) : list (Cell * Z) :=
  stable_sort (fun a b => (snd a <=? snd b)%Z) t.

(** [t.nlargest(n, value)] with the default [keep='first']: the first [n]
    rows of [t] ordered by decreasing value, equal values in the order of
    [t]. *)
Definition nlargest (n : nat) (t : list (Cell * Z)) : list (Cell * Z) :=
  firstn n (stable_sort by_value_desc t).

End Pandas.

(* ===================================================================== *)
(** * Data cleaning and the chart tables (lines 63-75, 148-271) *)
(* ===================================================================== *)

Module App.
Import PyStr Pandas.

(** Line 63, one column name:
    [col.strip().lower().replace(' ', '_').replace('plateform', 'platform')
        .replace('media_type', 'mediaType')] *)
Definition generic_name (col : string) : string :=
  replace " " "_" (lower (strip col)).

Definition rename_platform (name : string) : string :=
  replace "plateform" "platform" name.

Definition rename_media_type (name : string) : string :=
  replace "media_type" "mediaType" name.

Definition normalize_column (col : string) : string :=
  rename_media_type (rename_platform (generic_name col)).

(** Line 63, the header. *)
Definition normalize_columns (df : DataFrame) : DataFrame :=
  rename_columns normalize_column df.

(** [df[label]] where the script has checked [label in df.columns]. *)
Definition col (label : string) (df : DataFrame) : Series :=
  match get_column label df with Some s => s | None => [] end.

Section Cleaning.
(** What pandas reads in one value that is not missing: a date
    ([None]: no date can be read), and a number where the value is not
    already one ([None]: no number can be read). *)
Variable parse_datetime : Cell -> option Timestamp.
Variable parse_number : Cell -> option Q.

(** [pd.to_datetime(v, errors='coerce')]: what cannot be read is [NaT]. *)
Definition to_datetime (c : Cell) : Cell :=
  match c with
  | NaN => NaN
  | _ => match parse_datetime c with Some t => Datetime t | None => NaN end
  end.

(** [.dt.strftime('%Y-%m-%d')] on one value *)
Definition strftime_cell (c : Cell) : Cell :=
  match c with Datetime t => Str (strftime t) | _ => NaN end.

(** [pd.to_numeric(v, errors='coerce')]: what cannot be read is [NaN]. *)
Definition to_numeric (c : Cell) : option Q :=
  match c with
  | NaN => None
  | Int z => Some (inject_Z z)
  | Float q => Some q
  | _ => parse_number c
  end.

(** [pd.to_numeric(v, errors='coerce').fillna(0).astype(int)] on one value *)
Definition coerce_engagement (c : Cell) : Cell :=
  Int (astype_int (fillna0 (to_numeric c))).

(** Lines 66-69. *)
Definition clean_dates (df : DataFrame) : DataFrame :=
  if has_column "date" df then
    let df := set_column "date" (map to_datetime (col "date" df)) df in
    let df := dropna "date" df in
    set_column "date" (map strftime_cell (col "date" df)) df
  else df.

(** Lines 72-75. *)
Definition clean_engagements (df : DataFrame) : DataFrame :=
  if has_column "engagements" df then
    set_column "engagements" (map coerce_engagement (col "engagements" df)) df
  else
    set_column "engagements" (repeat (Int 0%Z) (nrows df)) df.

(** Lines 63-77: the frame stored as [cleaned_df]. *)
Definition clean (df : DataFrame) : DataFrame :=
  clean_engagements (clean_dates (normalize_columns df)).



End Cleaning.

Section Charts.
Variable key_leb : Cell -> Cell -> bool.

(** Line 148 *)
Definition sentiment_data (df : DataFrame) := value_counts "sentiment" df.
(** Line 184 *)
Definition engagement_trend_data (df : DataFrame) :=
  groupby_sum key_leb "date" "engagements" df.
(** Lines 208-209 *)
Definition platform_engagement_data (df : DataFrame) :=
  option_map sort_values_ascending (groupby_sum key_leb "platform" "engagements" df).
(** Line 234 *)
Definition media_type_data (df : DataFrame) := value_counts "mediaType" df.
(** Line 270 *)
Definition location_engagement_data (df : DataFrame) :=
  groupby_sum key_leb "location" "engagements" df.
(** Line 271 *)
Definition top_5_locations (df : DataFrame) :=
  option_map (nlargest 5) (location_engagement_data df).


End Charts.

End App.

(** ** Reference readers

    Two readers used to run the model on sample uploads: dates written
    [YYYY-MM-DD] and decimal integers with an optional sign, both of which
    pandas reads the same way; and the byte order on string keys. *)
Module Readers.
Import PyStr Pandas.

Definition digit_value (c : ascii) : nat := nat_of_ascii c - 48.

Fixpoint decimal (acc : nat) (s : string) : option nat :=
  match s with
  | EmptyString => Some acc
  | String c s' =>
      if is_digit c then decimal (10 * acc + digit_value c) s' else None
  end.

Definition unsigned (s : string) : option nat :=
  match s with EmptyString => None | _ => decimal 0 s end.

Definition read_number (c : Cell) : option Q :=
  match c with
  | Str s =>
      match strip s with
      | String "-" r => option_map (fun n => inject_Z (- Z.of_nat n)) (unsigned r)
      | r => option_map (fun n => inject_Z (Z.of_nat n)) (unsigned r)
      end
  | _ => None
  end.

(** Days every year has in month [m]. *)
Definition month_days (m : nat) : nat :=
  match m with
  | 2 => 28
  | 4 | 6 | 9 | 11 => 30
  | _ => 31
  end.

Definition read_date (c : Cell) : option Timestamp :=
  match c with
  | Str s =>
      let s := strip s in
      if is_iso_date s then
        match unsigned (substring 0 4 s), unsigned (substring 5 2 s),
              unsigned (substring 8 2 s) with
        | Some y, Some m, Some d =>
            if ((1678 <=? y) && (y <=? 2261) && (1 <=? m) && (m <=? 12)
                && (1 <=? d) && (d <=? month_days m))%nat
            then Some {| year := y; month := m; day := d |} else None
        | _, _, _ => None
        end
      else None
  | _ => None
  end.

Definition key_order (a b : Cell) : bool :=
  match a, b with
  | Str s, Str t => String.leb s t
  | _, _ => true
  end.

End Readers.

(* ===================================================================== *)
(** * The insight requester (lines 86-138) *)
(* ===================================================================== *)

Module Insights.
Import PyStr.

(** A decoded JSON document, as [response.json()] returns it. *)
#[warnings="-register-all"]
Inductive json :=
| JNull
| JBool (b : bool)
| JNum (q : Q)
| JStr (s : string)
| JArr (items : list json)
| JObj (fields : list (string * json)).

(** The exceptions the three handlers of the [try] tell apart; each carries
    the text that [{e}] prints. *)
Inductive exn :=
| RequestException (msg : string)
| JSONDecodeError (msg : string)
| OtherException (msg : string).

(** A computation that returns or raises. *)
Definition may_raise (A : Type) : Type := (exn + A)%type.

Definition ret {A} (a : A) : may_raise A := inr a.
Definition raise {A} (e : exn) : may_raise A := inl e.
Definition bind {A B} (m : may_raise A) (k : A -> may_raise B) : may_raise B :=
  match m with
  | inl e => inl e
  | inr a => k a
  end.

Notation "x <- m ;; k" := (bind m (fun x => k))
  (at level 61, m at next level, right associativity).

(** ** Python operations on a decoded document *)

Fixpoint lookup (k : string) (fields : list (string * json)) : option json :=
  match fields with
  | [] => None
  | (k', v) :: fields' => if String.eqb k k' then Some v else lookup k fields'
  end.

(** [bool(v)] *)
Definition py_truthy (v : json) : bool :=
  match v with
  | JNull => false
  | JBool b => b
  | JNum q => negb (Qeq_bool q (inject_Z 0))
  | JStr s => truthy s
  | JArr items => match items with [] => false | _ => true end
  | JObj fields => match fields with [] => false | _ => true end
  end.

(** [v.get(k)]: only a dict has [get]. *)
Definition py_get (k : string) (v : json) : may_raise json :=
  match v with
  | JObj fields => ret (match lookup k fields with Some x => x | None => JNull end)
  | _ => raise (OtherException "AttributeError")
  end.

(** [v[k]] for a string key *)
Definition py_item (k : string) (v : json) : may_raise json :=
  match v with
  | JObj fields =>
      match lookup k fields with
      | Some x => ret x
      | None => raise (OtherException "KeyError")
      end
  | _ => raise (OtherException "TypeError")
  end.

(** [v[0]] *)
Definition py_first (v : json) : may_raise json :=
  match v with
  | JArr (x :: _) => ret x
  | JArr [] => raise (OtherException "IndexError")
  | JStr (String c _) => ret (JStr (String c EmptyString))
  | JStr EmptyString => raise (OtherException "IndexError")
  | JObj _ => raise (OtherException "KeyError")
  | _ => raise (OtherException "TypeError")
  end.

(** [len(v)] (of a string: its bytes; only [len(v) > 0] is read) *)
Definition py_len (v : json) : may_raise nat :=
  match v with
  | JArr items => ret (List.length items)
  | JObj fields => ret (List.length fields)
  | JStr s => ret (String.length s)
  | _ => raise (OtherException "TypeError")
  end.

(** ** The transport *)

Record Response := {
  status_code : Z;
  reason : string;
  text : string;
  (** what [response.json()] returns or raises *)
  json_body : may_raise json
}.

(** [response.ok]: the status is not a client or server error. *)
Definition ok (r : Response) : bool :=
  negb ((400 <=? status_code r)%Z && (status_code r <? 600)%Z).

(** What the function reads outside itself: the environment, and the answer
    of [requests.post] to a given URL and payload. *)
Record World := {
  environ : string -> option string;
  post : string -> json -> may_raise Response
}.

(** [os.getenv(name, default)] *)
Definition getenv (w : World) (name default : string) : string :=
  match environ w name with Some v => v | None => default end.

(** What the function does besides returning: messages on the page and
    calls of [requests.post]. *)
Inductive Event :=
| St_error (msg : string)
| Http_post (url : string) (payload : json).

Definition is_http_post (e : Event) : bool :=
  match e with Http_post _ _ => true | St_error _ => false end.

(** ** Reading the insights (lines 118-128) *)

Definition LF : ascii := "010"%char.

(** [line.startswith(('-', '*', '•'))] *)
Definition is_bullet (line : string) : bool :=
  startswith "-" line || startswith "*" line || startswith "•" line.


(** Lines 123-126 *)
Definition parse_insights (text : string) : list string :=
  let lines := split LF text in
  let insights := map strip (filter (fun line => is_bullet (strip line)) lines) in
  let insights :=
    match insights with
    | [] => map strip (filter (fun line => truthy (strip line)) lines)
    | _ => insights
    end in
  firstn 3 insights.

(** The condition of lines 118-120; [and] stops at the first false operand. *)
Definition has_parts (result : json) : may_raise bool :=
  candidates <- py_get "candidates" result ;;
  if negb (py_truthy candidates) then ret false else
  candidates <- py_item "candidates" result ;;
  n <- py_len candidates ;;
  if negb (0 <? n)%nat then ret false else
  candidate <- py_first candidates ;;
  content <- py_get "content" candidate ;;
  if negb (py_truthy content) then ret false else
  content <- py_item "content" candidate ;;
  parts <- py_get "parts" content ;;
  if negb (py_truthy parts) then ret false else
  n <- py_len parts ;;
  ret (0 <? n)%nat.

(** Line 121: [result['candidates'][0]['content']['parts'][0]['text']] *)
Definition first_text (result : json) : may_raise json :=
  candidates <- py_item "candidates" result ;;
  candidate <- py_first candidates ;;
  content <- py_item "content" candidate ;;
  parts <- py_item "parts" content ;;
  part <- py_first parts ;;
  py_item "text" part.

(** Lines 118-128 *)
Definition read_result (result : json) : may_raise (list string) :=
  found <- has_parts result ;;
  if found then
    text <- first_text result ;;
    match text with
    | JStr s => ret (parse_insights s)
    | _ => raise (OtherException "AttributeError")
    end
  else ret ["Failed to generate insights: Unexpected API response structure."].

(** ** The function *)

Definition missing_key_message : string :=
  "Failed to generate insights: Gemini API Key is missing. Check your Canvas environment settings.".

Definition authorization_messages : list string :=
  ["Failed to generate insights: Authorization error (Status 401).";
   "Please ensure your API Key for the Gemini API is correctly configured in your Canvas environment settings."].

Definition api_error_message (status : Z) : string :=
  "Failed to generate insights: API returned an error (" ++ str_Z status ++ ").".

Definition network_message : string :=
  "Error generating insights: Network or API request failed. Please check your internet connection or API endpoint.".

Definition decode_message : string :=
  "Error generating insights: Could not parse API response.".

Definition unexpected_message : string :=
  "An unexpected error occurred while generating insights.".

Section Requester.
(** [json.dumps] *)
Variable json_dumps : json -> string.

(** Lines 97-98 *)
Definition prompt (chart_name : string) (data_to_analyze : json) : string :=
  "Based on the following data for the " ++ chart_name
  ++ " chart, provide 3 concise and insightful bullet points. Focus on key trends, patterns, and implications.
    Data: " ++ json_dumps data_to_analyze.

(** Lines 100-101 *)
Definition payload (chart_name : string) (data_to_analyze : json) : json :=
  JObj [("contents",
         JArr [JObj [("role", JStr "user");
                     ("parts", JArr [JObj [("text", JStr (prompt chart_name data_to_analyze))]])]])].

(** Line 95 *)
Definition api_url (key : string) : string :=
  "https://generativelanguage.googleapis.com/v1beta/models/gemini-2.0-flash:generateContent?key="
  ++ key.

(** Lines 106-128, once [requests.post] has returned. *)
Definition on_response (chart_name : string) (response : Response)
  : may_raise (list Event * list string) :=
  if negb (ok response) then
    let shown :=
      St_error ("API Error for " ++ chart_name ++ ": " ++ str_Z (status_code response)
                ++ " " ++ reason response ++ " - " ++ text response) in
    if (status_code response =? 401)%Z
    then ret ([shown], authorization_messages)
    else ret ([shown], [api_error_message (status_code response)])
  else
    result <- json_body response ;;
    insights <- read_result result ;;
    ret ([], insights).

(** Lines 130-138: the three handlers. *)
Definition on_exception (chart_name : string) (e : exn) : list Event * list string :=
  match e with
  | RequestException msg =>
      ([St_error ("Network or API request error for " ++ chart_name ++ ": " ++ msg)],
       [network_message])
  | JSONDecodeError msg =>
      ([St_error ("JSON decoding error for " ++ chart_name ++ ": " ++ msg)],
       [decode_message])
  | OtherException msg =>
      ([St_error ("An unexpected error occurred for " ++ chart_name ++ ": " ++ msg)],
       [unexpected_message])
  end.

(** Lines 86-138: the events in the order they happen, and the list
    returned. *)
Definition generate_insights_from_gemini
    (w : World) (chart_name : string) (data_to_analyze : json)
  : list Event * list string :=
  let GEMINI_API_KEY := getenv w "GEMINI_API_KEY" "" in
  if negb (truthy GEMINI_API_KEY) then
    ([St_error "Gemini API Key is not configured. Please set the 'GEMINI_API_KEY' environment variable in your Canvas environment settings."],
     [missing_key_message])
  else
    let url := api_url GEMINI_API_KEY in
    let body := payload chart_name data_to_analyze in
    let outcome := response <- post w url body ;; on_response chart_name response in
    match outcome with
    | inr (events, insights) => (Http_post url body :: events, insights)
    | inl e =>
        let (events, insights) := on_exception chart_name e in
        (Http_post url body :: events, insights)
    end.
End Requester.

End Insights.

(* ===================================================================== *)
(** * Sample uploads and sample answers of the endpoint *)
(* ===================================================================== *)

Module Samples.
Import PyStr Pandas App Insights.

(** The upload of the specification's first example. *)
Definition sample_upload : DataFrame :=
  [("Date", [Str "2024-01-01"; Str "not-a-date"]);
   ("plateform", [Str "Twitter"; Str "FB"]);
   ("Sentiment", [Str "Positive"; Str "Negative"]);
   ("location", [Str "NY"; Str "LA"]);
   ("engagements", [Int 10; Int 5]);
   ("Media Type", [Str "Video"; Str "Image"])].



(** A cleaned frame with six locations, two of them with equal totals. *)
Definition sample_locations : DataFrame :=
  [("location", [Str "NY"; Str "LA"; Str "SF"; Str "NY"; Str "TX"; NaN;
                 Str "WA"; Str "FL"; Str "LA"]);
   ("engagements", [Int 4; Int 7; Int 9; Int 5; Int 9; Int 100;
                    Int 2; Int 2; Int 1])].

Definition dumps (data : json) : string := "[]".

(** A world with the key set, whose endpoint gives one answer. *)
Definition world_with_key (answer : may_raise Response) : World :=
  {| environ := fun name => if String.eqb name "GEMINI_API_KEY" then Some "secret" else None;
     post := fun _ _ => answer |}.

(** A world without the key; its endpoint would answer. *)
Definition world_without_key (answer : may_raise Response) : World :=
  {| environ := fun _ => None; post := fun _ _ => answer |}.

(** The document of a successful answer carrying [text]. *)
Definition document (text : string) : json :=
  JObj [("candidates",
         JArr [JObj [("content", JObj [("parts", JArr [JObj [("text", JStr text)]])])]])].

Definition success (text : string) : Response :=
  {| status_code := 200; reason := "OK"; text := "{...}";
     json_body := inr (document text) |}.

Definition unauthorized : Response :=
  {| status_code := 401; reason := "Unauthorized"; text := "";
     json_body := inl (JSONDecodeError "Expecting value") |}.

Definition server_error : Response :=
  {| status_code := 503; reason := "Service Unavailable"; text := "";
     json_body := inl (JSONDecodeError "Expecting value") |}.

Definition three_bullets : string :=
  "- Sales rose
* Costs fell
• Margins grew".

End Samples.

(* ===================================================================== *)
(** * The script from top to bottom (lines 30-83, 142-292) *)
(* ===================================================================== *)

Module Script.
Import PyStr Pandas App Insights.

(** [st.session_state], once lines 30-43 have run. *)
Record Session := {
  csv_data : option DataFrame;
  cleaned_df : option DataFrame;
  sentiment_insights : list string;
  engagement_insights : list string;
  platform_insights : list string;
  media_type_insights : list string;
  location_insights : list string
}.

(** Lines 30-43 on a session that holds nothing yet. *)
Definition new_session : Session :=
  {| csv_data := None; cleaned_df := None;
     sentiment_insights := []; engagement_insights := [];
     platform_insights := []; media_type_insights := [];
     location_insights := [] |}.

(** The five chart blocks, in the order of the script. *)
Inductive Chart :=
| Sentiment
| EngagementTrend
| PlatformEngagements
| MediaTypeMix
| TopLocations.

Definition charts : list Chart :=
  [Sentiment; EngagementTrend; PlatformEngagements; MediaTypeMix; TopLocations].

Definition chart_eqb (a b : Chart) : bool :=
  match a, b with
  | Sentiment, Sentiment | EngagementTrend, EngagementTrend
  | PlatformEngagements, PlatformEngagements | MediaTypeMix, MediaTypeMix
  | TopLocations, TopLocations => true
  | _, _ => false
  end.

(** The first argument of the call at lines 174, 199, 225, 261 and 287. *)
Definition chart_name (c : Chart) : string :=
  match c with
  | Sentiment => "Sentiment Breakdown"
  | EngagementTrend => "Engagement Trend over Time"
  | PlatformEngagements => "Platform Engagements"
  | MediaTypeMix => "Media Type Mix"
  | TopLocations => "Top 5 Locations"
  end.

(** The names of the two columns of a chart's table. *)
Definition chart_columns (c : Chart) : string * string :=
  match c with
  | Sentiment => ("sentiment", "count")
  | EngagementTrend => ("date", "engagements")
  | PlatformEngagements => ("platform", "engagements")
  | MediaTypeMix => ("mediaType", "count")
  | TopLocations => ("location", "engagements")
  end.

(** The session slot a chart's insights are kept in. *)
Definition slot (c : Chart) (s : Session) : list string :=
  match c with
  | Sentiment => sentiment_insights s
  | EngagementTrend => engagement_insights s
  | PlatformEngagements => platform_insights s
  | MediaTypeMix => media_type_insights s
  | TopLocations => location_insights s
  end.

(** [st.session_state.<slot> = insights] *)
Definition set_slot (c : Chart) (insights : list string) (s : Session) : Session :=
  match c with
  | Sentiment =>
      {| csv_data := csv_data s; cleaned_df := cleaned_df s;
         sentiment_insights := insights;
         engagement_insights := engagement_insights s;
         platform_insights := platform_insights s;
         media_type_insights := media_type_insights s;
         location_insights := location_insights s |}
  | EngagementTrend =>
      {| csv_data := csv_data s; cleaned_df := cleaned_df s;
         sentiment_insights := sentiment_insights s;
         engagement_insights := insights;
         platform_insights := platform_insights s;
         media_type_insights := media_type_insights s;
         location_insights := location_insights s |}
  | PlatformEngagements =>
      {| csv_data := csv_data s; cleaned_df := cleaned_df s;
         sentiment_insights := sentiment_insights s;
         engagement_insights := engagement_insights s;
         platform_insights := insights;
         media_type_insights := media_type_insights s;
         location_insights := location_insights s |}
  | MediaTypeMix =>
      {| csv_data := csv_data s; cleaned_df := cleaned_df s;
         sentiment_insights := sentiment_insights s;
         engagement_insights := engagement_insights s;
         platform_insights := platform_insights s;
         media_type_insights := insights;
         location_insights := location_insights s |}
  | TopLocations =>
      {| csv_data := csv_data s; cleaned_df := cleaned_df s;
         sentiment_insights := sentiment_insights s;
         engagement_insights := engagement_insights s;
         platform_insights := platform_insights s;
         media_type_insights := media_type_insights s;
         location_insights := insights |}
  end.

(** [st.session_state.csv_data = a; st.session_state.cleaned_df = b] *)
Definition set_frames (a b : option DataFrame) (s : Session) : Session :=
  {| csv_data := a; cleaned_df := b;
     sentiment_insights := sentiment_insights s;
     engagement_insights := engagement_insights s;
     platform_insights := platform_insights s;
     media_type_insights := media_type_insights s;
     location_insights := location_insights s |}.


(** What [{e}] prints. *)
Definition exn_text (e : exn) : string :=
  match e with
  | RequestException msg | JSONDecodeError msg | OtherException msg => msg
  end.

(** [df.empty]: an axis of the frame has length 0. *)
Definition empty (df : DataFrame) : bool :=
  (List.length df =? 0)%nat || (nrows df =? 0)%nat.

(** One value of [t.to_dict('records')]. *)
Definition json_of_cell (c : Cell) : json :=
  match c with
  | NaN => JNull
  | Int z => JNum (inject_Z z)
  | Float q => JNum q
  | Str s => JStr s
  | Datetime t => JStr (strftime t)
  end.

(** [t.to_dict('records')] for a table of two columns. *)
Definition to_dict_records (names : string * string) (t : list (Cell * Z)) : json :=
  JArr (map (fun kv => JObj [(fst names, json_of_cell (fst kv));
                             (snd names, JNum (inject_Z (snd kv)))]) t).

(** How a run of the script ends: at its last line, or at a line that
    raises with nothing to catch it. *)
Inductive Ending :=
| Finished
| Uncaught (error : string).

Section Run.
Variable parse_datetime : Cell -> option Timestamp.
Variable parse_number : Cell -> option Q.
Variable key_leb : Cell -> Cell -> bool.
Variable json_dumps : json -> string.
Variable w : World.

(** Lines 46-83.  [uploaded] is [None] when no file is chosen, and else
    what [pd.read_csv(uploaded_file)] returns or raises. *)
Definition on_upload (uploaded : option (may_raise DataFrame)) (s : Session)
  : Session * list Event :=
  match uploaded with
  | None => (s, [])
  | Some (inr df) =>
      (set_frames (Some df) (Some (clean parse_datetime parse_number df)) s, [])
  | Some (inl e) =>
      (set_frames None None s,
       [St_error ("Error processing file: " ++ exn_text e
                  ++ ". Please check your CSV format and column names.")])
  end.

(** The table of a chart (lines 148, 184, 208-209, 234, 270-271); [None]
    is the [KeyError] of a column that is not there. *)
Definition chart_table (c : Chart) (df : DataFrame) : option (list (Cell * Z)) :=
  match c with
  | Sentiment => sentiment_data df
  | EngagementTrend => engagement_trend_data key_leb df
  | PlatformEngagements => platform_engagement_data key_leb df
  | MediaTypeMix => media_type_data df
  | TopLocations => top_5_locations key_leb df
  end.

(** [st.button(...)] of chart [c], in a run started by a click on
    [clicked]. *)
Definition button (c : Chart) (clicked : option Chart) : bool :=
  match clicked with
  | Some c' => chart_eqb c c'
  | None => false
  end.

(** The chart blocks [cs] one after the other (lines 146-292): the table,
    then the button, whose click stores what the requester returns. *)
Fixpoint chart_blocks (cs : list Chart) (df : DataFrame) (clicked : option Chart)
    (s : Session) : Session * list Event * Ending :=
  match cs with
  | [] => (s, [], Finished)
  | c :: cs' =>
      match chart_table c df with
      | None => (s, [], Uncaught "KeyError")
      | Some t =>
          let r :=
            if button c clicked
            then generate_insights_from_gemini json_dumps w (chart_name c)
                   (to_dict_records (chart_columns c) t)
            else ([], slot c s) in
          let s1 := if button c clicked then set_slot c (snd r) s else s in
          match chart_blocks cs' df clicked s1 with
          | (s2, events, ending) => (s2, (fst r ++ events)%list, ending)
          end
      end
  end.

(** One run of the script. *)
Definition run (uploaded : option (may_raise DataFrame)) (clicked : option Chart)
    (s : Session) : Session * list Event * Ending :=
  let s1 := fst (on_upload uploaded s) in
  let shown := snd (on_upload uploaded s) in
  match cleaned_df s1 with
  | Some df =>
      if empty df then (s1, shown, Finished)
      else
        match chart_blocks charts df clicked s1 with
        | (s2, events, ending) => (s2, (shown ++ events)%list, ending)
        end
  | None => (s1, shown, Finished)
  end.
End Run.

End Script.

(** ** More sample uploads *)
Module SamplesMore.
Import Pandas Insights Samples Script.


(** An upload without dates. *)
Definition undated_sentiments : DataFrame :=
  [("Sentiment", [Str "Positive"; Str "Negative"]);
   ("plateform", [Str "Twitter"; Str "FB"]);
   ("engagements", [Int 3; Int 4])].



(** A world in which the endpoint answers with three bulleted lines. *)
Definition answering_world : World :=
  world_with_key (inr (success three_bullets)).


(** A document with a second candidate and further fields. *)
Definition rich_document : list (string * json) :=
  [("modelVersion", JStr "gemini-2.0-flash");
   ("candidates",
    JArr [JObj [("finishReason", JStr "STOP");
                ("content", JObj [("role", JStr "model");
                                  ("parts", JArr [JObj [("text", JStr "- one")];
                                                  JObj [("text", JStr "- two")]])])];
          JObj [("content", JObj [("parts", JArr [JObj [("text", JStr "- other")]])])]])].

End SamplesMore.

(** ** Measures of tables and frames *)
Module Measures.
Import Pandas.

(** The sum of the second column of a table. *)
Definition total (t : list (Cell * Z)) : Z :=
  fold_right Z.add 0%Z (map snd t).



End Measures.

(* ===================================================================== *)
(** * Facts about the string operations *)
(* ===================================================================== *)

Module PyStrFacts.
Import PyStr.

Lemma startswith_empty (s : string) : startswith "" s = true.
Proof. destruct s; reflexivity. Qed.

Lemma startswith_cons (a b : ascii) (p s : string) :
  startswith (String a p) (String b s) = true <-> a = b /\ startswith p s = true.
Proof.
  unfold startswith; simpl.
  destruct (ascii_dec a b) as [e | n]; split; intros H.
  - split; [exact e | exact H].
  - apply H.
  - discriminate H.
  - destruct H as [e _]. contradiction.
Qed.

Lemma startswith_app (p b : string) : startswith p (p ++ b) = true.
Proof.
  induction p as [| a p IH]; simpl.
  - apply startswith_empty.
  - apply startswith_cons. split; [reflexivity | exact IH].
Qed.

Lemma startswith_split (p s : string) :
  startswith p s = true -> exists b, s = p ++ b.
Proof.
  revert s. induction p as [| a p IH]; intros s H.
  - exists s. reflexivity.
  - destruct s as [| c s]; [discriminate H |].
    apply startswith_cons in H. destruct H as [-> H].
    destruct (IH s H) as [b ->]. exists b. reflexivity.
Qed.

Lemma startswith_app_l (q x b : string) :
  startswith q x = true -> startswith q (x ++ b) = true.
Proof.
  revert x. induction q as [| a q IH]; intros x H.
  - apply startswith_empty.
  - destruct x as [| c x]; [discriminate H |].
    apply startswith_cons in H. destruct H as [-> H].
    simpl. apply startswith_cons. split; [reflexivity | apply IH, H].
Qed.

Lemma clash_startswith (a q s : string) :
  clash a q = true -> startswith q s = true -> startswith a s = false.
Proof.
  revert q s. induction a as [| x a IH]; intros q s Hc Hq.
  - destruct q; discriminate Hc.
  - destruct q as [| y q]; [discriminate Hc |].
    destruct s as [| z s]; [reflexivity |].
    apply startswith_cons in Hq. destruct Hq as [-> Hq].
    simpl in Hc. apply orb_true_iff in Hc.
    destruct (startswith (String x a) (String z s)) eqn:E; [| reflexivity].
    apply startswith_cons in E. destruct E as [-> E].
    destruct Hc as [Hc | Hc].
    + rewrite Ascii.eqb_refl in Hc. discriminate Hc.
    + rewrite (IH q s Hc Hq) in E. discriminate E.
Qed.

Lemma contains_cons (p : string) (c : ascii) (s : string) :
  contains p (String c s) = startswith p (String c s) || contains p s.
Proof. reflexivity. Qed.

Section Replace.
Variables (h : ascii) (old' new : string).
Let old := String h old'.

Lemma replace_from_skip (x b : string) :
  replace_from old new (String.length x) (x ++ b) = replace old new b.
Proof. induction x as [| c x IH]; simpl; [reflexivity | exact IH]. Qed.

Lemma replace_hit (b : string) :
  replace old new (old ++ b) = new ++ replace old new b.
Proof.
  unfold replace. change (old ++ b) with (String h (old' ++ b)).
  cbn [replace_from].
  change (String h (old' ++ b)) with (old ++ b).
  rewrite startswith_app.
  replace (String.length old - 1) with (String.length old')
    by (subst old; simpl; lia).
  rewrite replace_from_skip. reflexivity.
Qed.

Lemma replace_miss (c : ascii) (s : string) :
  startswith old (String c s) = false ->
  replace old new (String c s) = String c (replace old new s).
Proof. intros H. unfold replace. cbn [replace_from]. rewrite H. reflexivity. Qed.

(** A string without [old] is returned as it is. *)
Lemma replace_absent (s : string) :
  contains old s = false -> replace old new s = s.
Proof.
  induction s as [| c s IH]; intros H; [reflexivity |].
  rewrite contains_cons in H. apply orb_false_iff in H. destruct H as [H1 H2].
  rewrite (replace_miss _ _ H1), (IH H2). reflexivity.
Qed.

(** The first occurrence, wherever it stands, is rewritten in place. *)
Lemma replace_first_occurrence (s : string) :
  contains old s = true ->
  exists a b, s = a ++ old ++ b /\
              replace old new s = a ++ new ++ replace old new b.
Proof.
  induction s as [| c s IH]; intros H.
  - discriminate H.
  - destruct (startswith old (String c s)) eqn:E.
    + destruct (startswith_split _ _ E) as [b Hb].
      exists "", b. split; [exact Hb |].
      rewrite Hb. apply replace_hit.
    + rewrite contains_cons, E in H. simpl in H.
      destruct (IH H) as (a & b & Hs & Hr).
      exists (String c a), b. split.
      * simpl. rewrite Hs. reflexivity.
      * rewrite (replace_miss _ _ E), Hr. reflexivity.
Qed.

(** What is read at the head of the output was at the head of the input. *)
Lemma read_back_startswith (q s : string) :
  read_back old new q = true ->
  startswith q (replace old new s) = true -> startswith q s = true.
Proof.
  revert s. induction q as [| y q IH]; intros s Hq H.
  - apply startswith_empty.
  - cbn [read_back] in Hq. apply andb_true_iff in Hq. destruct Hq as [Hq Hq'].
    destruct s as [| c s]; [discriminate H |].
    destruct (startswith old (String c s)) eqn:E.
    + destruct (startswith_split _ _ E) as [b Hb]. rewrite Hb in *.
      rewrite replace_hit in H.
      apply orb_true_iff in Hq. destruct Hq as [Hq | Hq].
      * pose proof (startswith_app new (replace old new b)) as F.
        rewrite (clash_startswith new (String y q) _ Hq H) in F. discriminate F.
      * apply startswith_app_l, Hq.
    + rewrite (replace_miss _ _ E) in H.
      apply startswith_cons in H. destruct H as [-> H].
      apply startswith_cons. split; [reflexivity | apply IH; assumption].
Qed.

(** What is read at the head of the input, and cannot meet [old], is
    still at the head of the output. *)
Lemma no_hit_startswith (q s : string) :
  no_hit_inside old q = true ->
  startswith q s = true -> startswith q (replace old new s) = true.
Proof.
  revert s. induction q as [| y q IH]; intros s Hq H.
  - apply startswith_empty.
  - cbn [no_hit_inside] in Hq. apply andb_true_iff in Hq. destruct Hq as [Hq Hq'].
    destruct s as [| c s]; [discriminate H |].
    rewrite (replace_miss c s (clash_startswith _ _ _ Hq H)).
    apply startswith_cons in H. destruct H as [-> H].
    apply startswith_cons. split; [reflexivity | apply IH; assumption].
Qed.

Section Absent.
(** A pattern [p :: pat'] that the text written for [old] cannot help to
    spell. *)
Variables (p : ascii) (pat' : string).
Let pat := String p pat'.
Hypothesis new_is_inert : forall r, contains pat (new ++ r) = contains pat r.
Hypothesis tail_read_back : read_back old new pat' = true.

(** Writing [new] for [old] spells no [pat], in any state of the scan:
    while [guard] holds of what is still to be read. *)
Lemma replace_from_spells_none (guard : string -> Prop) :
  (forall c s, guard (String c s) -> guard s) ->
  (forall c s, guard (String c s) ->
               startswith old (String c s) = false ->
               startswith pat (String c s) = false) ->
  forall s k, guard s -> contains pat (replace_from old new k s) = false.
Proof.
  intros Gtail Gmiss. induction s as [| c s IH]; intros k G.
  - reflexivity.
  - destruct k as [| k]; cbn [replace_from].
    + destruct (startswith old (String c s)) eqn:E.
      * rewrite new_is_inert. apply IH. exact (Gtail _ _ G).
      * rewrite contains_cons. apply orb_false_iff. split.
        -- destruct (startswith pat (String c (replace_from old new 0 s))) eqn:F;
             [| reflexivity].
           apply startswith_cons in F. destruct F as [-> F].
           apply (read_back_startswith _ _ tail_read_back) in F.
           assert (startswith pat (String c s) = true) as F'
             by (apply startswith_cons; split; [reflexivity | exact F]).
           rewrite (Gmiss _ _ G E) in F'. discriminate F'.
        -- apply IH. exact (Gtail _ _ G).
    + apply IH. exact (Gtail _ _ G).
Qed.
End Absent.
End Replace.

(** ** Characters *)

Ltac by_cases_on_char c :=
  destruct c as [b0 b1 b2 b3 b4 b5 b6 b7];
  destruct b0, b1, b2, b3, b4, b5, b6, b7; reflexivity.

Lemma is_space_lower_char (c : ascii) : is_space (lower_char c) = is_space c.
Proof. by_cases_on_char c. Qed.

Lemma not_upper_lower_char (c : ascii) : not_upper (lower_char c) = true.
Proof. by_cases_on_char c. Qed.

Lemma lower_char_not_upper (c : ascii) : not_upper c = true -> lower_char c = c.
Proof.
  unfold not_upper, lower_char. destruct (is_upper c); [discriminate | reflexivity].
Qed.

(** ** [strip] and [lower] *)

Lemma lstrip_clean (s : string) : starts_clean s = true -> lstrip s = s.
Proof.
  destruct s as [| c s]; simpl; [reflexivity |].
  destruct (is_space c); [discriminate | reflexivity].
Qed.

Lemma rstrip_clean (s : string) : ends_clean s = true -> rstrip s = s.
Proof.
  induction s as [| c s IH]; intros H; [reflexivity |].
  destruct s as [| d s].
  - simpl in *. destruct (is_space c); [discriminate H | reflexivity].
  - change (ends_clean (String c (String d s))) with (ends_clean (String d s)) in H.
    cbn [rstrip]. cbn [rstrip] in IH. rewrite (IH H). reflexivity.
Qed.

Lemma starts_clean_lstrip (s : string) : starts_clean (lstrip s) = true.
Proof.
  induction s as [| c s IH]; simpl; [reflexivity |].
  destruct (is_space c) eqn:E; [exact IH | simpl; rewrite E; reflexivity].
Qed.

Lemma ends_clean_rstrip (s : string) : ends_clean (rstrip s) = true.
Proof.
  induction s as [| c s IH]; [reflexivity |].
  cbn [rstrip]. destruct (rstrip s) as [| d r].
  - destruct (is_space c) eqn:E; simpl; [reflexivity | rewrite E; reflexivity].
  - exact IH.
Qed.

Lemma starts_clean_rstrip (s : string) :
  starts_clean s = true -> starts_clean (rstrip s) = true.
Proof.
  destruct s as [| c s]; intros H; [reflexivity |].
  cbn [rstrip]. simpl in H.
  destruct (rstrip s); [| exact H].
  destruct (is_space c) eqn:E; [discriminate H | simpl; rewrite E; reflexivity].
Qed.

Lemma strip_clean (s : string) :
  starts_clean s = true -> ends_clean s = true -> strip s = s.
Proof.
  intros H1 H2. unfold strip. rewrite (lstrip_clean _ H1). apply rstrip_clean, H2.
Qed.

Lemma starts_clean_strip (s : string) : starts_clean (strip s) = true.
Proof. apply starts_clean_rstrip, starts_clean_lstrip. Qed.

Lemma ends_clean_strip (s : string) : ends_clean (strip s) = true.
Proof. apply ends_clean_rstrip. Qed.

Lemma starts_clean_lower (s : string) :
  starts_clean s = true -> starts_clean (lower s) = true.
Proof.
  destruct s as [| c s]; simpl; [reflexivity |].
  rewrite is_space_lower_char. trivial.
Qed.

Lemma ends_clean_lower (s : string) :
  ends_clean s = true -> ends_clean (lower s) = true.
Proof.
  induction s as [| c s IH]; intros H; [reflexivity |].
  destruct s as [| d s].
  - simpl in *. rewrite is_space_lower_char. exact H.
  - apply IH. exact H.
Qed.

Lemma all_not_upper_lower (s : string) : all_chars not_upper (lower s) = true.
Proof.
  induction s as [| c s IH]; simpl; [reflexivity |].
  rewrite not_upper_lower_char. exact IH.
Qed.

Lemma lower_fixed (s : string) : all_chars not_upper s = true -> lower s = s.
Proof.
  induction s as [| c s IH]; simpl; intros H; [reflexivity |].
  apply andb_true_iff in H. destruct H as [H1 H2].
  rewrite (lower_char_not_upper _ H1), (IH H2). reflexivity.
Qed.

Lemma ends_clean_app (a b : string) :
  ends_clean (a ++ b) =
  match b with EmptyString => ends_clean a | _ => ends_clean b end.
Proof.
  induction a as [| c a IH].
  - destruct b; reflexivity.
  - destruct b as [| d b].
    + destruct a; simpl in *; [reflexivity | exact IH].
    + destruct a; simpl in *; [reflexivity | exact IH].
Qed.

Lemma all_chars_app (f : ascii -> bool) (a b : string) :
  all_chars f (a ++ b) = all_chars f a && all_chars f b.
Proof.
  induction a as [| c a IH]; simpl; [reflexivity |].
  rewrite IH. apply andb_assoc.
Qed.

Section ReplaceShape.
Variables (old new : string).

Lemma starts_clean_replace (s : string) :
  starts_clean new = true -> new <> "" ->
  starts_clean s = true -> starts_clean (replace old new s) = true.
Proof.
  intros Hn Hne H. destruct s as [| c s]; [reflexivity |].
  unfold replace. cbn [replace_from].
  destruct (startswith old (String c s)); [| exact H].
  destruct new; [contradiction | exact Hn].
Qed.

Lemma replace_empty (s : string) :
  new <> "" -> replace old new s = "" -> s = "".
Proof.
  intros Hne. destruct s as [| c s]; [reflexivity |].
  unfold replace. cbn [replace_from].
  destruct (startswith old (String c s)); [| discriminate].
  destruct new; [contradiction | discriminate].
Qed.

Lemma ends_clean_replace_from (s : string) :
  ends_clean new = true -> new <> "" ->
  forall k, ends_clean s = true -> ends_clean (replace_from old new k s) = true.
Proof.
  intros Hn Hne. induction s as [| c s IH]; intros k H; [reflexivity |].
  assert (ends_clean s = true) as Hs by (destruct s; [reflexivity | exact H]).
  destruct k as [| k]; cbn [replace_from]; [| apply IH, Hs].
  destruct (startswith old (String c s)).
  - rewrite ends_clean_app.
    destruct (replace_from old new (String.length old - 1) s) eqn:E;
      [exact Hn | rewrite <- E; apply IH, Hs].
  - destruct (replace_from old new 0 s) eqn:E.
    + apply (replace_empty s Hne) in E. subst s. exact H.
    + change (ends_clean (String c (String a s0))) with (ends_clean (String a s0)).
      rewrite <- E. apply IH, Hs.
Qed.

Lemma all_chars_replace_from (f : ascii -> bool) (s : string) :
  all_chars f new = true ->
  forall k, all_chars f s = true -> all_chars f (replace_from old new k s) = true.
Proof.
  intros Hn. induction s as [| c s IH]; intros k H; [reflexivity |].
  simpl in H. apply andb_true_iff in H. destruct H as [H1 H2].
  destruct k as [| k]; cbn [replace_from]; [| apply IH, H2].
  destruct (startswith old (String c s)).
  - rewrite all_chars_app, Hn. apply IH, H2.
  - simpl. rewrite H1. apply IH, H2.
Qed.
End ReplaceShape.

Lemma no_blank_after_replace (s : string) :
  all_chars not_blank (replace " " "_" s) = true.
Proof.
  unfold replace. induction s as [| c s IH]; [reflexivity |].
  cbn [replace_from]. destruct (startswith " " (String c s)) eqn:E.
  - simpl. exact IH.
  - simpl. rewrite IH, andb_true_r. unfold not_blank.
    destruct (Ascii.eqb c " ") eqn:F; [| reflexivity].
    apply Ascii.eqb_eq in F. subst c.
    rewrite (proj2 (startswith_cons " " " " "" s)) in E; [discriminate E |].
    split; [reflexivity | apply startswith_empty].
Qed.

Lemma no_blank_absent (s : string) :
  all_chars not_blank s = true -> contains " " s = false.
Proof.
  induction s as [| c s IH]; intros H; [reflexivity |].
  simpl in H. apply andb_true_iff in H. destruct H as [H1 H2].
  rewrite contains_cons, (IH H2), orb_false_r.
  destruct (startswith " " (String c s)) eqn:E; [| reflexivity].
  apply startswith_cons in E. destruct E as [<- _]. discriminate H1.
Qed.

End PyStrFacts.

(* ===================================================================== *)
(** * Column-name normalization (line 63) *)
(* ===================================================================== *)

Module Normalization.
Import PyStr PyStrFacts Pandas App.

Example normalize_spec_header :
  map normalize_column
      ["Date"; "plateform"; "Sentiment"; "location"; "engagements"; "Media Type"]
  = ["date"; "platform"; "sentiment"; "location"; "engagements"; "mediaType"].
Proof. reflexivity. Qed.

Example normalize_trims_and_joins :
  normalize_column "  Media Type " = "mediaType"
  /\ normalize_column "Total  Engagements" = "total__engagements".
Proof. split; reflexivity. Qed.

(** After the plateform rename no [plateform] is left. *)
Lemma rename_platform_leaves_none (s : string) :
  contains "plateform" (rename_platform s) = false.
Proof.
  unfold rename_platform, replace.
  apply (replace_from_spells_none "p" "lateform" "platform" "p" "lateform"
           (fun r => eq_refl) eq_refl (fun _ => True)); auto.
Qed.

(** After the media_type rename no [media_type] is left. *)
Lemma rename_media_type_leaves_none (s : string) :
  contains "media_type" (rename_media_type s) = false.
Proof.
  unfold rename_media_type, replace.
  apply (replace_from_spells_none "m" "edia_type" "mediaType" "m" "edia_type"
           (fun r => eq_refl) eq_refl (fun _ => True)); auto.
Qed.

(** The media_type rename does not bring a [plateform] back. *)
Lemma rename_media_type_spells_no_plateform (s : string) :
  contains "plateform" s = false ->
  contains "plateform" (rename_media_type s) = false.
Proof.
  unfold rename_media_type, replace.
  apply (replace_from_spells_none "m" "edia_type" "mediaType" "p" "lateform"
           (fun r => eq_refl) eq_refl (fun r => contains "plateform" r = false)).
  - intros c r H. rewrite contains_cons in H. apply orb_false_iff in H. apply H.
  - intros c r H _. rewrite contains_cons in H. apply orb_false_iff in H. apply H.
Qed.

(** The plateform rename does not remove a [media_type]. *)
Lemma rename_platform_keeps_media_type (n : nat) : forall s : string,
  String.length s <= n ->
  contains "media_type" s = true ->
  contains "media_type" (rename_platform s) = true.
Proof.
  unfold rename_platform.
  induction n as [| n IH]; intros s Hlen H.
  - destruct s; [discriminate H | simpl in Hlen; lia].
  - destruct s as [| c s]; [discriminate H |].
    destruct (startswith "plateform" (String c s)) eqn:E.
    + destruct (startswith_split _ _ E) as [b Hb]. rewrite Hb in *.
      rewrite (replace_hit "p" "lateform" "platform" b).
      assert (String.length b <= n) as Hb' by (simpl in Hlen; lia).
      specialize (IH b Hb').
      remember (replace "plateform" "platform" b) as r eqn:Hr.
      cbn in H. cbn. apply orb_true_iff in H. apply orb_true_iff.
      destruct H as [H | H].
      * left. rewrite Hr.
        apply (no_hit_startswith "p" "lateform" "platform" "edia_type" b eq_refl H).
      * right. apply IH, H.
    + rewrite (replace_miss "p" "lateform" "platform" c s E).
      rewrite contains_cons in H. rewrite contains_cons.
      apply orb_true_iff in H. apply orb_true_iff.
      assert (String.length s <= n) as Hs by (simpl in Hlen; lia).
      destruct H as [H | H]; [left | right; apply (IH s Hs H)].
      apply startswith_cons in H. destruct H as [<- H].
      apply startswith_cons. split; [reflexivity |].
      apply (no_hit_startswith "p" "lateform" "platform" "edia_type" s eq_refl H).
Qed.

(** What the first three steps return is trimmed, in lower case and
    without blanks, and stays so under the plateform rename. *)
Lemma generic_name_shape (col : string) :
  let s := rename_platform (generic_name col) in
  starts_clean s = true /\ ends_clean s = true
  /\ all_chars not_upper s = true /\ all_chars not_blank s = true.
Proof.
  unfold rename_platform, generic_name. repeat split.
  - apply starts_clean_replace; [reflexivity | discriminate |].
    apply starts_clean_replace; [reflexivity | discriminate |].
    apply starts_clean_lower, starts_clean_strip.
  - apply ends_clean_replace_from; [reflexivity | discriminate |].
    apply ends_clean_replace_from; [reflexivity | discriminate |].
    apply ends_clean_lower, ends_clean_strip.
  - apply all_chars_replace_from; [reflexivity |].
    apply all_chars_replace_from; [reflexivity |].
    apply all_not_upper_lower.
  - apply all_chars_replace_from; [reflexivity |].
    apply no_blank_after_replace.
Qed.

(** A name on which the media_type rename has nothing to do is left as it
    is by a second pass. *)
Lemma normalize_column_twice (col : string) :
  contains "media_type" (rename_platform (generic_name col)) = false ->
  normalize_column (normalize_column col) = normalize_column col.
Proof.
  intros H.
  destruct (generic_name_shape col) as (H1 & H2 & H3 & H4).
  assert (normalize_column col = rename_platform (generic_name col)) as E
    by (apply (replace_absent "m" "edia_type" "mediaType"), H).
  rewrite E. set (x := rename_platform (generic_name col)) in *.
  unfold normalize_column, generic_name.
  rewrite (strip_clean x H1 H2), (lower_fixed x H3).
  rewrite (replace_absent " " "" "_" x (no_blank_absent x H4)).
  assert (rename_platform x = x) as F
    by (apply (replace_absent "p" "lateform" "platform"),
        rename_platform_leaves_none).
  rewrite F. apply (replace_absent "m" "edia_type" "mediaType"), H.
Qed.

(** C3 (as the code has it): normalizing a header a second time changes
    nothing, provided no column name, once trimmed, lower-cased, joined with
    underscores and through the plateform rename, contains [media_type].
    (A name that does is turned into [mediaType], which a second pass
    lower-cases.) *)
Theorem normalize_columns_idempotent (df : DataFrame) :
  Forall (fun col => contains "media_type" (rename_platform (generic_name col)) = false)
         (columns df) ->
  normalize_columns (normalize_columns df) = normalize_columns df.
Proof.
  unfold normalize_columns, rename_columns, columns.
  induction df as [| [c s] df IH]; intros H; [reflexivity |].
  inversion H as [| ? ? Hc Hdf]; subst.
  simpl. rewrite (normalize_column_twice c Hc). f_equal. apply IH, Hdf.
Qed.

Lemma normalize_columns_idempotent_witness :
  normalize_columns
    (normalize_columns [("Date", [Str "2024-01-01"]); ("plateform", [Str "X"]);
                        (" Total Engagements", [Int 3%Z])])
  = normalize_columns [("Date", [Str "2024-01-01"]); ("plateform", [Str "X"]);
                       (" Total Engagements", [Int 3%Z])].
Proof.
  apply normalize_columns_idempotent.
  repeat constructor.
Defined.

(** C3 as stated fails: the header of the expected upload is changed by a
    second normalization, [mediaType] becoming [mediatype]. *)
Lemma normalize_columns_not_idempotent :
  columns (normalize_columns
    [("Date", []); ("plateform", []); ("Sentiment", []); ("location", []);
     ("engagements", []); ("Media Type", [])])
  = ["date"; "platform"; "sentiment"; "location"; "engagements"; "mediaType"]
  /\
  columns (normalize_columns (normalize_columns
    [("Date", []); ("plateform", []); ("Sentiment", []); ("location", []);
     ("engagements", []); ("Media Type", [])]))
  = ["date"; "platform"; "sentiment"; "location"; "engagements"; "mediatype"]
  /\ String.eqb "mediaType" "mediatype" = false.
Proof. repeat split. Qed.

(** C10: the two renames act on substrings.  Wherever [plateform] stands in
    the trimmed, lower-cased, underscore-joined name, its first occurrence
    is rewritten in place, what precedes it is kept and what follows is
    renamed in the same way; likewise for [media_type]; and the normalized
    name contains neither. *)
Theorem renames_replace_substrings :
  (forall col, contains "plateform" (generic_name col) = true ->
     exists a b,
       generic_name col = a ++ "plateform" ++ b /\
       rename_platform (generic_name col) = a ++ "platform" ++ rename_platform b)
  /\
  (forall col, contains "media_type" (generic_name col) = true ->
     exists a b,
       rename_platform (generic_name col) = a ++ "media_type" ++ b /\
       normalize_column col = a ++ "mediaType" ++ rename_media_type b)
  /\
  (forall col, contains "plateform" (normalize_column col) = false
               /\ contains "media_type" (normalize_column col) = false)
  /\ normalize_column "My plateform" = "my_platform"
  /\ normalize_column "Social Media Type" = "social_mediaType".
Proof.
  split; [| split; [| split; [| split; reflexivity]]].
  - intros col H.
    exact (replace_first_occurrence "p" "lateform" "platform" _ H).
  - intros col H.
    apply (rename_platform_keeps_media_type _ _ (le_n _)) in H.
    exact (replace_first_occurrence "m" "edia_type" "mediaType" _ H).
  - intros col. split.
    + apply rename_media_type_spells_no_plateform, rename_platform_leaves_none.
    + apply rename_media_type_leaves_none.
Qed.

Lemma renames_replace_substrings_witness :
  exists a b,
    generic_name " My Plateform Name" = a ++ "plateform" ++ b /\
    rename_platform (generic_name " My Plateform Name")
    = a ++ "platform" ++ rename_platform b.
Proof.
  apply (proj1 renames_replace_substrings " My Plateform Name").
  reflexivity.
Defined.

End Normalization.

(* ===================================================================== *)
(** * Facts about frames *)
(* ===================================================================== *)

Module FrameFacts.
Import Pandas App.

Lemma has_column_get (label : string) (df : DataFrame) :
  has_column label df = match get_column label df with Some _ => true | None => false end.
Proof.
  unfold has_column, columns.
  induction df as [| [c s] df IH]; simpl; [reflexivity |].
  destruct (String.eqb label c); [reflexivity | exact IH].
Qed.


Lemma get_column_absent (label : string) (df : DataFrame) :
  has_column label df = false -> get_column label df = None.
Proof.
  rewrite has_column_get. destruct (get_column label df); [discriminate | reflexivity].
Qed.

Lemma get_set_same (label : string) (s : Series) (df : DataFrame) :
  get_column label (set_column label s df) = Some s.
Proof.
  induction df as [| [c s'] df IH]; simpl.
  - rewrite String.eqb_refl. reflexivity.
  - destruct (String.eqb label c) eqn:E; simpl; rewrite E; [reflexivity | exact IH].
Qed.



Lemma set_set (label : string) (a b : Series) (df : DataFrame) :
  set_column label a (set_column label b df) = set_column label a df.
Proof.
  induction df as [| [c s'] df IH]; simpl.
  - rewrite String.eqb_refl. reflexivity.
  - destruct (String.eqb label c) eqn:E; simpl; rewrite E; [reflexivity |].
    rewrite IH. reflexivity.
Qed.












End FrameFacts.

(* ===================================================================== *)
(** * The cleaning step (lines 63-77) *)
(* ===================================================================== *)

Module Cleaning.
Import PyStr Pandas App Readers Samples FrameFacts.

Example clean_sample_upload :
  clean read_date read_number sample_upload
  = [("date", [Str "2024-01-01"]); ("platform", [Str "Twitter"]);
     ("sentiment", [Str "Positive"]); ("location", [Str "NY"]);
     ("engagements", [Int 10]); ("mediaType", [Str "Video"])]
  /\ nrows (clean read_date read_number sample_upload) = 1
  /\ platform_engagement_data key_order (clean read_date read_number sample_upload)
     = Some [(Str "Twitter", 10%Z)].
Proof. repeat split. Qed.

Example clean_without_engagements :
  clean read_date read_number [("Date", [Str "2024-01-01"; Str "2024-01-02"]);
                               ("location", [Str "NY"; Str "LA"])]
  = [("date", [Str "2024-01-01"; Str "2024-01-02"]);
     ("location", [Str "NY"; Str "LA"]);
     ("engagements", [Int 0; Int 0])].
Proof. reflexivity. Qed.




Section Facts.
Variable parse_datetime : Cell -> option Timestamp.
Variable parse_number : Cell -> option Q.

Local Abbreviation to_dt := (to_datetime parse_datetime).












(** The engagements column that lines 72-75 leave. *)
Lemma get_engagements (df : DataFrame) :
  get_column "engagements" (clean_engagements parse_number df)
  = Some (if has_column "engagements" df
          then map (coerce_engagement parse_number) (col "engagements" df)
          else repeat (Int 0%Z) (nrows df)).
Proof.
  unfold clean_engagements.
  destruct (has_column "engagements" df); apply get_set_same.
Qed.









End Facts.

Section DateFacts.
Variable parse_datetime : Cell -> option Timestamp.
Variable parse_number : Cell -> option Q.
Variable key_leb : Cell -> Cell -> bool.

End DateFacts.





End Cleaning.

(* ===================================================================== *)
(** * Sorting, grouping and the top-5 table (lines 270-271) *)
(* ===================================================================== *)

Module Tables.
Import Pandas App Readers Samples.

Section SortFacts.
Context {A : Type} (leb : A -> A -> bool).

Lemma insert_sorted_perm (x : A) (l : list A) :
  Permutation (insert_sorted leb x l) (x :: l).
Proof.
  induction l as [| y l IH]; simpl; [apply Permutation_refl |].
  destruct (leb x y); [apply Permutation_refl |].
  apply perm_trans with (y :: x :: l); [apply perm_skip, IH | apply perm_swap].
Qed.

Lemma stable_sort_perm (l : list A) : Permutation (stable_sort leb l) l.
Proof.
  induction l as [| x l IH]; simpl; [apply perm_nil |].
  apply perm_trans with (x :: stable_sort leb l);
    [apply insert_sorted_perm | apply perm_skip, IH].
Qed.




Hypothesis leb_total : forall a b, leb a b = false -> leb b a = true.
Hypothesis leb_trans : forall a b c, leb a b = true -> leb b c = true -> leb a c = true.

Lemma insert_sorted_sorted (x : A) (l : list A) :
  StronglySorted (fun a b => leb a b = true) l ->
  StronglySorted (fun a b => leb a b = true) (insert_sorted leb x l).
Proof.
  induction l as [| y l IH]; intros H; simpl.
  - constructor; constructor.
  - inversion H as [| ? ? Hl Hy]; subst.
    destruct (leb x y) eqn:E.
    + constructor; [exact H |].
      constructor; [exact E |].
      eapply Forall_impl; [| exact Hy]. intros z Hz. exact (leb_trans _ _ _ E Hz).
    + constructor; [apply IH, Hl |].
      rewrite insert_sorted_perm.
      constructor; [apply leb_total, E | exact Hy].
Qed.

Lemma stable_sort_sorted (l : list A) :
  StronglySorted (fun a b => leb a b = true) (stable_sort leb l).
Proof.
  induction l as [| x l IH]; simpl; [constructor | apply insert_sorted_sorted, IH].
Qed.
End SortFacts.

(** ** Groups *)


Lemma add_group_keys (k : Cell) (v : Z) (acc : list (Cell * Z)) :
  map fst (add_group k v acc) = add_key k (map fst acc).
Proof.
  unfold add_key. induction acc as [| [k' v'] acc IH]; [reflexivity |].
  cbn [add_group map fst existsb].
  destruct (cell_eqb k k'); [reflexivity |].
  cbn [orb map fst]. rewrite IH.
  destruct (existsb (cell_eqb k) (map fst acc)); reflexivity.
Qed.

Lemma group_sums_keys_from (kvs acc : list (Cell * Z)) :
  map fst (fold_left (fun acc kv =>
                        if notna (fst kv) then add_group (fst kv) (snd kv) acc else acc)
                     kvs acc)
  = fold_left (fun acc k => if notna k then add_key k acc else acc)
              (map fst kvs) (map fst acc).
Proof.
  revert acc. induction kvs as [| [k v] kvs IH]; intros acc; [reflexivity |].
  cbn [fold_left map fst snd]. rewrite IH.
  destruct (notna k); [rewrite add_group_keys |]; reflexivity.
Qed.

(** The keys of the groups are the distinct keys, first appearance first. *)
Lemma group_sums_keys (kvs : list (Cell * Z)) :
  map fst (group_sums kvs) = unique (map fst kvs).
Proof. apply (group_sums_keys_from kvs []). Qed.





(** ** [nlargest] *)

Lemma strongly_sorted_weaken {A : Type} (R R' : A -> A -> Prop) (l : list A) :
  (forall a b, R a b -> R' a b) -> StronglySorted R l -> StronglySorted R' l.
Proof.
  intros HR. induction 1 as [| a l Hl IH Ha]; constructor; [exact IH |].
  eapply Forall_impl; [| exact Ha]. intros b. apply HR.
Qed.


Example sample_locations_summed :
  location_engagement_data key_order sample_locations
  = Some [(Str "FL", 2); (Str "LA", 8); (Str "NY", 9); (Str "SF", 9);
          (Str "TX", 9); (Str "WA", 2)]%Z.
Proof. reflexivity. Qed.

Example sample_locations_top_5 :
  top_5_locations key_order sample_locations
  = Some [(Str "NY", 9); (Str "SF", 9); (Str "TX", 9); (Str "LA", 8); (Str "FL", 2)]%Z.
Proof. reflexivity. Qed.



End Tables.

(* ===================================================================== *)
(** * The insight requester (lines 86-138) *)
(* ===================================================================== *)

Module Requester.
Import PyStr PyStrFacts Insights Samples.

Example run_success :
  generate_insights_from_gemini dumps (world_with_key (inr (success "intro
 - first
 - second
")))
    "Sentiment Breakdown" (JArr [])
  = ([Http_post (api_url "secret") (payload dumps "Sentiment Breakdown" (JArr []))],
     ["- first"; "- second"]).
Proof. reflexivity. Qed.

Example run_plain_text :
  snd (generate_insights_from_gemini dumps
         (world_with_key (inr (success "one
two

three
four"))) "Media Type Mix" (JArr []))
  = ["one"; "two"; "three"].
Proof. reflexivity. Qed.

Example run_server_error :
  snd (generate_insights_from_gemini dumps (world_with_key (inr server_error))
         "Top 5 Locations" (JArr []))
  = ["Failed to generate insights: API returned an error (503)."].
Proof. reflexivity. Qed.

Example run_network_failure :
  snd (generate_insights_from_gemini dumps
         (world_with_key (inl (RequestException "Connection refused")))
         "Top 5 Locations" (JArr []))
  = [network_message].
Proof. reflexivity. Qed.

Example run_odd_document :
  snd (generate_insights_from_gemini dumps
         (world_with_key (inr {| status_code := 200; reason := "OK"; text := "{}";
                                 json_body := inr (JObj []) |}))
         "Top 5 Locations" (JArr []))
  = ["Failed to generate insights: Unexpected API response structure."]
  /\
  snd (generate_insights_from_gemini dumps
         (world_with_key (inr {| status_code := 200; reason := "OK"; text := "[]";
                                 json_body := inr (JArr []) |}))
         "Top 5 Locations" (JArr []))
  = [unexpected_message].
Proof. split; reflexivity. Qed.

(** ** Lines 123-126 *)










(** ** The function *)

Section Function.
Variable json_dumps : json -> string.
Variables (w : World) (chart_name : string) (data : json).

Local Abbreviation key := (getenv w "GEMINI_API_KEY" "").
Local Abbreviation run := (generate_insights_from_gemini json_dumps w chart_name data).
Local Abbreviation sent :=
  (Http_post (api_url key) (payload json_dumps chart_name data)).
Local Abbreviation answer :=
  (post w (api_url key) (payload json_dumps chart_name data)).

(** With a key, [requests.post] is called once, first of all. *)
Lemma request_sent_once :
  truthy key = true ->
  exists events, fst run = sent :: events /\ existsb is_http_post events = false.
Proof.
  intros K. unfold generate_insights_from_gemini. rewrite K. cbn [negb].
  destruct answer as [e | response]; cbn [bind].
  - destruct e; cbn; eexists; split; reflexivity.
  - destruct (on_response chart_name response) as [e | [events insights]] eqn:R.
    + destruct e; cbn; eexists; split; reflexivity.
    + cbn. exists events. split; [reflexivity |].
      unfold on_response in R. destruct (negb (ok response)).
      * destruct (status_code response =? 401)%Z; injection R as <- _; reflexivity.
      * destruct (json_body response) as [e | body]; [discriminate R |].
        cbn [bind] in R.
        destruct (read_result body); [discriminate R |].
        injection R as <- _. reflexivity.
Qed.

(** When the status is a client or server error. *)
Lemma run_not_ok (response : Response) :
  truthy key = true -> answer = inr response -> ok response = false ->
  snd run = if (status_code response =? 401)%Z then authorization_messages
            else [api_error_message (status_code response)].
Proof.
  intros K P O. unfold generate_insights_from_gemini. rewrite K, P.
  cbn [negb bind]. unfold on_response. rewrite O. cbn [negb].
  destruct (status_code response =? 401)%Z; reflexivity.
Qed.



(** C5 (as the code has it): on a status that is a client or server error,
    a status other than 401 gives one string, the API error with the
    status; status 401 gives two strings, the first naming the
    authorization error, neither of them an API error string. *)
Theorem error_status_messages (response : Response) :
  truthy key = true -> answer = inr response -> ok response = false ->
  snd run = (if (status_code response =? 401)%Z then authorization_messages
             else [api_error_message (status_code response)])
  /\ List.length authorization_messages = 2
  /\ contains "Authorization error (Status 401)" (hd "" authorization_messages) = true
  /\ (forall status,
        api_error_message status
        = "Failed to generate insights: API returned an error ("
          ++ str_Z status ++ ").")
  /\ (forall status,
        forallb (fun m => negb (String.eqb m (api_error_message status)))
                authorization_messages = true).
Proof.
  intros K P O. split; [apply (run_not_ok response K P O) |].
  split; [reflexivity | split; [reflexivity | split]]; intros status.
  - reflexivity.
  - unfold api_error_message, authorization_messages. reflexivity.
Qed.


(** C7: without a key (the variable unset or empty) the function returns
    the one string about the missing key, and the only thing it does is to
    show a message: [requests.post] is not called. *)
Theorem missing_key_short_circuits :
  key = "" ->
  snd run = [missing_key_message]
  /\ contains "API Key is missing" missing_key_message = true
  /\ existsb is_http_post (fst run) = false
  /\ List.length (fst run) = 1.
Proof.
  intros K. unfold generate_insights_from_gemini. rewrite K. cbn [truthy negb].
  repeat split.
Qed.
End Function.

Lemma error_status_messages_witness :
  snd (generate_insights_from_gemini dumps (world_with_key (inr server_error))
         "Platform Engagements" (JArr []))
  = [api_error_message 503].
Proof.
  exact (proj1 (error_status_messages dumps (world_with_key (inr server_error))
                  "Platform Engagements" (JArr []) server_error
                  eq_refl eq_refl eq_refl)).
Defined.

(** C5 as stated fails: status 401 gives two strings, not one. *)
Lemma unauthorized_gives_two_strings :
  ok unauthorized = false
  /\ snd (generate_insights_from_gemini dumps (world_with_key (inr unauthorized))
            "Platform Engagements" (JArr []))
     = ["Failed to generate insights: Authorization error (Status 401).";
        "Please ensure your API Key for the Gemini API is correctly configured in your Canvas environment settings."]
  /\ List.length
       (snd (generate_insights_from_gemini dumps (world_with_key (inr unauthorized))
               "Platform Engagements" (JArr []))) = 2.
Proof. repeat split. Qed.




Lemma missing_key_short_circuits_witness :
  snd (generate_insights_from_gemini dumps
         (world_without_key (inr (success three_bullets)))
         "Sentiment Breakdown" (JArr []))
  = [missing_key_message]
  /\ existsb is_http_post
       (fst (generate_insights_from_gemini dumps
               (world_without_key (inr (success three_bullets)))
               "Sentiment Breakdown" (JArr []))) = false.
Proof.
  pose proof (missing_key_short_circuits dumps
                (world_without_key (inr (success three_bullets)))
                "Sentiment Breakdown" (JArr []) eq_refl) as H.
  split; [exact (proj1 H) | exact (proj1 (proj2 (proj2 H)))].
Defined.

End Requester.

(* ===================================================================== *)
(** * More on the cleaning step (lines 63-77) *)
(* ===================================================================== *)

Module CleaningMore.
Import PyStr Pandas App Readers Samples Measures FrameFacts Cleaning.










Section Facts.
Variable parse_datetime : Cell -> option Timestamp.
Variable parse_number : Cell -> option Q.






Lemma coerce_engagement_int (z : Z) : coerce_engagement parse_number (Int z) = Int z.
Proof.
  unfold coerce_engagement, to_numeric, fillna0, astype_int. simpl.
  rewrite Z.quot_1_r. reflexivity.
Qed.

Lemma coerce_engagement_again (s : Series) :
  map (coerce_engagement parse_number) (map (coerce_engagement parse_number) s)
  = map (coerce_engagement parse_number) s.
Proof.
  induction s as [| c s IH]; [reflexivity |].
  cbn [map]. rewrite IH. f_equal.
  unfold coerce_engagement at 2. apply coerce_engagement_int.
Qed.

Lemma coerce_engagement_zeros (n : nat) :
  map (coerce_engagement parse_number) (repeat (Int 0%Z) n) = repeat (Int 0%Z) n.
Proof.
  induction n as [| n IH]; [reflexivity |].
  cbn [repeat map]. rewrite IH, coerce_engagement_int. reflexivity.
Qed.

(** X3: the engagements step changes nothing when run a second time:
    integers pass the coercion as they are. *)
Theorem clean_engagements_idempotent (df : DataFrame) :
  clean_engagements parse_number (clean_engagements parse_number df)
  = clean_engagements parse_number df.
Proof.
  assert (has_column "engagements" (clean_engagements parse_number df) = true) as P
    by (rewrite has_column_get, get_engagements; reflexivity).
  unfold clean_engagements at 1. rewrite P.
  unfold col. rewrite get_engagements.
  unfold clean_engagements.
  destruct (has_column "engagements" df); rewrite set_set.
  - rewrite coerce_engagement_again. reflexivity.
  - rewrite coerce_engagement_zeros. reflexivity.
Qed.
End Facts.


End CleaningMore.

(* ===================================================================== *)
(** * More on the chart tables (lines 148, 184, 208-209, 234, 270-271) *)
(* ===================================================================== *)

Module TablesMore.
Import PyStr Pandas App Readers Samples SamplesMore Measures Script.
Import FrameFacts Cleaning Tables.

Lemma total_cons (e : Cell * Z) (t : list (Cell * Z)) :
  total (e :: t) = (snd e + total t)%Z.
Proof. reflexivity. Qed.

Lemma total_perm (a b : list (Cell * Z)) : Permutation a b -> total a = total b.
Proof.
  induction 1 as [| x a b _ IH | x y a | a b c _ IH1 _ IH2].
  - reflexivity.
  - rewrite !total_cons, IH. reflexivity.
  - rewrite !total_cons. lia.
  - rewrite IH1. exact IH2.
Qed.

Lemma total_add_group (k : Cell) (v : Z) (acc : list (Cell * Z)) :
  total (add_group k v acc) = (total acc + v)%Z.
Proof.
  induction acc as [| [k' v'] acc IH]; cbn [add_group].
  - rewrite total_cons. cbn. lia.
  - destruct (cell_eqb k k'); rewrite !total_cons; cbn [snd]; [lia |].
    rewrite IH. lia.
Qed.

Lemma total_group_sums_from (kvs acc : list (Cell * Z)) :
  total (fold_left (fun acc kv =>
                      if notna (fst kv) then add_group (fst kv) (snd kv) acc else acc)
                   kvs acc)
  = (total acc + total (filter (fun kv => notna (fst kv)) kvs))%Z.
Proof.
  revert acc. induction kvs as [| [k v] kvs IH]; intros acc; cbn [fold_left filter fst snd].
  - cbn. lia.
  - rewrite IH. destruct (notna k).
    + rewrite total_add_group, total_cons. cbn [snd]. lia.
    + reflexivity.
Qed.

(** The totals of the groups add up to the values of the rows that have a
    key. *)
Lemma total_group_sums (kvs : list (Cell * Z)) :
  total (group_sums kvs) = total (filter (fun kv => notna (fst kv)) kvs).
Proof. unfold group_sums. rewrite total_group_sums_from. reflexivity. Qed.

Lemma add_group_all (P : Z -> Prop) (k : Cell) (v : Z) (acc : list (Cell * Z)) :
  P v -> (forall a, P a -> P (a + v)%Z) ->
  Forall (fun e => P (snd e)) acc -> Forall (fun e => P (snd e)) (add_group k v acc).
Proof.
  intros Hv Hadd. induction acc as [| [k' v'] acc IH]; intros H; cbn [add_group].
  - constructor; [exact Hv | constructor].
  - inversion H as [| ? ? H1 H2]; subst. cbn [snd] in H1.
    destruct (cell_eqb k k'); constructor; cbn [snd]; auto.
Qed.

Lemma group_sums_all (P : Z -> Prop) (kvs : list (Cell * Z)) :
  (forall a v, P a -> P v -> P (a + v)%Z) ->
  Forall (fun e => P (snd e)) kvs ->
  Forall (fun e => P (snd e)) (group_sums kvs).
Proof.
  intros Hadd. unfold group_sums.
  assert (forall acc, Forall (fun e => P (snd e)) acc ->
            Forall (fun e => P (snd e)) kvs ->
            Forall (fun e => P (snd e))
              (fold_left (fun acc kv =>
                 if notna (fst kv) then add_group (fst kv) (snd kv) acc else acc)
                 kvs acc)) as G.
  { induction kvs as [| [k v] kvs IH]; intros acc Ha H; [exact Ha |].
    inversion H as [| ? ? H1 H2]; subst. cbn [fold_left fst snd] in *.
    apply IH; [| exact H2].
    destruct (notna k); [| exact Ha].
    apply add_group_all; auto. }
  intros H. apply G; [constructor | exact H].
Qed.



Lemma by_value_desc_sorted (t : list (Cell * Z)) :
  StronglySorted (fun a b => (snd b <= snd a)%Z) (stable_sort by_value_desc t).
Proof.
  eapply strongly_sorted_weaken; [| apply (stable_sort_sorted by_value_desc)].
  - intros a b H. apply Z.leb_le, H.
  - unfold by_value_desc. intros a b H. apply Z.leb_gt in H. apply Z.leb_le. lia.
  - unfold by_value_desc. intros a b c H1 H2.
    apply Z.leb_le in H1, H2. apply Z.leb_le. lia.
Qed.

Section Facts.
Variable key_leb : Cell -> Cell -> bool.

Lemma total_ones (ks : Series) :
  total (filter (fun kv => notna (fst kv)) (map (fun k => (k, 1%Z)) ks))
  = Z.of_nat (List.length (filter notna ks)).
Proof.
  induction ks as [| k ks IH]; [reflexivity |].
  cbn [map filter fst]. destruct (notna k); [| exact IH].
  rewrite total_cons, IH. cbn [snd List.length]. lia.
Qed.

(** X5: a value-counts table counts every row that has a value once: its
    keys are the distinct values, each count is at least 1, the counts add
    up to the number of rows whose value is not missing, and the larger
    counts come first. *)
Theorem value_counts_counts_rows (col_ : string) (df : DataFrame) (ks : Series) :
  get_column col_ df = Some ks ->
  exists t,
    value_counts col_ df = Some t
    /\ Permutation (map fst t) (unique ks)
    /\ Forall (fun e => (1 <= snd e)%Z) t
    /\ total t = Z.of_nat (List.length (filter notna ks))
    /\ StronglySorted (fun a b => (snd b <= snd a)%Z) t.
Proof.
  intros Hk. unfold value_counts. rewrite Hk.
  set (groups := group_sums (map (fun k => (k, 1%Z)) ks)).
  exists (stable_sort by_value_desc groups).
  assert (Permutation (stable_sort by_value_desc groups) groups) as Hp
    by apply stable_sort_perm.
  split; [reflexivity |]. split; [| split; [| split]].
  - rewrite (Permutation_map fst Hp). subst groups.
    rewrite group_sums_keys, map_map. cbn [fst]. rewrite map_id. apply Permutation_refl.
  - rewrite Hp. subst groups.
    apply (group_sums_all (fun z => (1 <= z)%Z)); [intros; lia |].
    apply Forall_forall. intros e He. apply in_map_iff in He.
    destruct He as (k & <- & _). cbn. lia.
  - rewrite (total_perm _ _ Hp). subst groups.
    rewrite total_group_sums. apply total_ones.
  - apply by_value_desc_sorted.
Qed.

(** X6: the platform table holds the rows of the group-by-sum table, each
    once, in increasing order of total. *)
Theorem platform_table_ascending (df : DataFrame) (t : list (Cell * Z)) :
  platform_engagement_data key_leb df = Some t ->
  exists summed,
    groupby_sum key_leb "platform" "engagements" df = Some summed
    /\ Permutation t summed
    /\ StronglySorted (fun a b => (snd a <= snd b)%Z) t.
Proof.
  unfold platform_engagement_data. intros H.
  destruct (groupby_sum key_leb "platform" "engagements" df) as [summed |];
    [| discriminate H].
  injection H as <-. exists summed. unfold sort_values_ascending.
  split; [reflexivity |]. split; [apply stable_sort_perm |].
  eapply strongly_sorted_weaken;
    [| apply (stable_sort_sorted (fun a b => (snd a <=? snd b)%Z))].
  - intros a b H. apply Z.leb_le, H.
  - intros a b H. apply Z.leb_gt in H. apply Z.leb_le. lia.
  - intros a b c H1 H2. apply Z.leb_le in H1, H2. apply Z.leb_le. lia.
Qed.

Variable parse_datetime : Cell -> option Timestamp.
Variable parse_number : Cell -> option Q.





End Facts.


Lemma value_counts_counts_rows_witness :
  exists t,
    value_counts "location" sample_locations = Some t
    /\ Permutation (map fst t) (unique (col "location" sample_locations))
    /\ Forall (fun e => (1 <= snd e)%Z) t
    /\ total t = Z.of_nat (List.length (filter notna (col "location" sample_locations)))
    /\ StronglySorted (fun a b => (snd b <= snd a)%Z) t.
Proof.
  apply (value_counts_counts_rows "location" sample_locations). reflexivity.
Defined.

Lemma platform_table_ascending_witness :
  exists summed,
    groupby_sum key_order "platform" "engagements"
      (clean read_date read_number undated_sentiments) = Some summed
    /\ Permutation [(Str "Twitter", 3%Z); (Str "FB", 4%Z)] summed
    /\ StronglySorted (fun a b => (snd a <= snd b)%Z)
                      [(Str "Twitter", 3%Z); (Str "FB", 4%Z)].
Proof.
  apply (platform_table_ascending key_order
           (clean read_date read_number undated_sentiments)).
  reflexivity.
Defined.


End TablesMore.

(* ===================================================================== *)
(** * More on the insight requester (lines 86-138) *)
(* ===================================================================== *)

Module RequesterMore.
Import PyStr PyStrFacts Insights Samples SamplesMore Script Requester.



Lemma no_post_filter (events : list Event) :
  existsb is_http_post events = false -> filter is_http_post events = [].
Proof.
  induction events as [| e events IH]; [reflexivity |].
  cbn [existsb filter]. destruct (is_http_post e); [discriminate |]. exact IH.
Qed.






Section Function.
Variable json_dumps : json -> string.
Variables (w : World) (chart_name : string) (data : json).

Local Abbreviation key := (getenv w "GEMINI_API_KEY" "").
Local Abbreviation run := (generate_insights_from_gemini json_dumps w chart_name data).
Local Abbreviation sent :=
  (Http_post (api_url key) (payload json_dumps chart_name data)).
Local Abbreviation answer :=
  (post w (api_url key) (payload json_dumps chart_name data)).

(** X11: one call of the function calls [requests.post] once when the key
    is set and never when it is not: there is no second attempt on any
    path. *)
Theorem one_request_per_call :
  filter is_http_post (fst run) = if truthy key then [sent] else [].
Proof.
  destruct (truthy key) eqn:K.
  - destruct (request_sent_once json_dumps w chart_name data K) as (events & E & N).
    rewrite E. cbn [filter is_http_post]. rewrite (no_post_filter _ N). reflexivity.
  - unfold generate_insights_from_gemini. rewrite K. reflexivity.
Qed.

End Function.

(** X13: in a document of the expected shape only the text of the first
    part of the first candidate is read; further candidates, parts and
    fields are ignored. *)
Theorem first_candidate_text_read
    (fields cf tf pf : list (string * json)) (cs ps : list json) (text : string) :
  lookup "candidates" fields = Some (JArr (JObj cf :: cs)) ->
  lookup "content" cf = Some (JObj tf) ->
  lookup "parts" tf = Some (JArr (JObj pf :: ps)) ->
  lookup "text" pf = Some (JStr text) ->
  read_result (JObj fields) = inr (parse_insights text).
Proof.
  intros H1 H2 H3 H4. unfold read_result, has_parts, first_text.
  cbn [py_get py_item bind ret]. rewrite H1. cbn [py_truthy negb bind ret py_len py_first
    List.length Nat.ltb Nat.leb py_get py_item].
  rewrite H2.
  assert (py_truthy (JObj tf) = true) as T
    by (destruct tf; [discriminate H3 | reflexivity]).
  rewrite T. cbn [negb bind ret py_get py_item]. rewrite H3.
  cbn [py_truthy negb bind ret py_len py_first List.length Nat.ltb Nat.leb py_item].
  rewrite H4. reflexivity.
Qed.

(** X14: a document that is a dict without candidates (no such key, null,
    or an empty list) gives the string about the unexpected structure; a
    document that is not a dict raises (an [AttributeError]) and, like a
    first part without a [text], ends in the last handler. *)
Theorem odd_documents (fields : list (string * json)) :
  (lookup "candidates" fields = None
   \/ lookup "candidates" fields = Some JNull
   \/ lookup "candidates" fields = Some (JArr []) ->
   read_result (JObj fields)
   = inr ["Failed to generate insights: Unexpected API response structure."])
  /\ (forall items, read_result (JArr items) = inl (OtherException "AttributeError"))
  /\ (forall s, read_result (JStr s) = inl (OtherException "AttributeError"))
  /\ read_result JNull = inl (OtherException "AttributeError")
  /\ (forall cf tf pf cs ps,
        lookup "candidates" fields = Some (JArr (JObj cf :: cs)) ->
        lookup "content" cf = Some (JObj tf) ->
        lookup "parts" tf = Some (JArr (JObj pf :: ps)) ->
        lookup "text" pf = None ->
        read_result (JObj fields) = inl (OtherException "KeyError")).
Proof.
  split; [| split; [| split; [| split]]]; try reflexivity.
  - intros [H | [H | H]]; unfold read_result, has_parts; cbn [py_get bind ret];
      rewrite H; reflexivity.
  - intros cf tf pf cs ps H1 H2 H3 H4. unfold read_result, has_parts, first_text.
    cbn [py_get py_item bind ret]. rewrite H1. cbn [py_truthy negb bind ret py_len py_first
      List.length Nat.ltb Nat.leb py_get py_item].
    rewrite H2.
    assert (py_truthy (JObj tf) = true) as T
      by (destruct tf; [discriminate H3 | reflexivity]).
    rewrite T. cbn [negb bind ret py_get py_item]. rewrite H3.
    cbn [py_truthy negb bind ret py_len py_first List.length Nat.ltb Nat.leb py_item].
    rewrite H4. reflexivity.
Qed.




Lemma first_candidate_text_read_witness :
  read_result (JObj rich_document) = inr ["- one"].
Proof.
  exact (first_candidate_text_read rich_document _ _ _ _ _ "- one"
           eq_refl eq_refl eq_refl eq_refl).
Defined.

End RequesterMore.

(* ===================================================================== *)
(** * The script from top to bottom (lines 30-83, 142-292) *)
(* ===================================================================== *)

Module ScriptFacts.
Import PyStr Pandas App Readers Insights Samples SamplesMore Measures Script.
Import FrameFacts Cleaning CleaningMore TablesMore Requester RequesterMore.

Lemma chart_eqb_eq (a b : Chart) : chart_eqb a b = true <-> a = b.
Proof. destruct a, b; split; intros H; try reflexivity; discriminate H. Qed.


Lemma slot_set_other (c c' : Chart) (v : list string) (s : Session) :
  chart_eqb c c' = false -> slot c (set_slot c' v s) = slot c s.
Proof. destruct c, c'; intros H; try reflexivity; discriminate H. Qed.

Lemma frames_set_slot (c : Chart) (v : list string) (s : Session) :
  csv_data (set_slot c v s) = csv_data s /\ cleaned_df (set_slot c v s) = cleaned_df s.
Proof. destruct c; split; reflexivity. Qed.

Lemma slot_set_frames (c : Chart) (a b : option DataFrame) (s : Session) :
  slot c (set_frames a b s) = slot c s.
Proof. destruct c; reflexivity. Qed.

Section Facts.
Variable parse_datetime : Cell -> option Timestamp.
Variable parse_number : Cell -> option Q.
Variable key_leb : Cell -> Cell -> bool.
Variable json_dumps : json -> string.
Variable w : World.

Local Abbreviation upload := (on_upload parse_datetime parse_number).
Local Abbreviation blocks := (chart_blocks key_leb json_dumps w).
Local Abbreviation script := (run parse_datetime parse_number key_leb json_dumps w).
Local Abbreviation ask := (generate_insights_from_gemini json_dumps w).

Lemma upload_keeps_slots (uploaded : option (may_raise DataFrame)) (s : Session)
    (c : Chart) :
  slot c (fst (upload uploaded s)) = slot c s.
Proof.
  destruct uploaded as [[e | df] |]; cbn [on_upload fst];
    try apply slot_set_frames; reflexivity.
Qed.

Lemma blocks_keep_other_slots (cs : list Chart) (df : DataFrame)
    (clicked : option Chart) (c : Chart) :
  button c clicked = false ->
  forall s, slot c (fst (fst (blocks cs df clicked s))) = slot c s.
Proof.
  intros Hc. induction cs as [| c' cs IH]; intros s; [reflexivity |].
  cbn [chart_blocks]. destruct (chart_table key_leb c' df) as [t |]; [| reflexivity].
  match goal with
  | |- context [blocks cs df clicked ?s1] =>
      specialize (IH s1); destruct (blocks cs df clicked s1) as [[s2 ev] en] eqn:E
  end.
  cbn [fst] in *. rewrite IH.
  destruct (button c' clicked) eqn:B; [| reflexivity].
  apply slot_set_other.
  destruct clicked as [k |]; [| discriminate B]. cbn [button] in *.
  apply chart_eqb_eq in B. subst c'. exact Hc.
Qed.

Lemma blocks_keep_frames (cs : list Chart) (df : DataFrame) (clicked : option Chart) :
  forall s, csv_data (fst (fst (blocks cs df clicked s))) = csv_data s
            /\ cleaned_df (fst (fst (blocks cs df clicked s))) = cleaned_df s.
Proof.
  induction cs as [| c' cs IH]; intros s; [split; reflexivity |].
  cbn [chart_blocks]. destruct (chart_table key_leb c' df) as [t |]; [| split; reflexivity].
  match goal with
  | |- context [blocks cs df clicked ?s1] =>
      specialize (IH s1); destruct (blocks cs df clicked s1) as [[s2 ev] en] eqn:E
  end.
  cbn [fst] in *. destruct IH as [-> ->].
  destruct (button c' clicked); [apply frames_set_slot | split; reflexivity].
Qed.

(** X15: a file that cannot be read clears both frames of the session and
    ends the run after one message: whatever button was clicked, no
    request is made, and every insight slot keeps what it held. *)
Theorem unreadable_file_clears_frames (e : exn) (clicked : option Chart) (s : Session) :
  let r := script (Some (inl e)) clicked s in
  csv_data (fst (fst r)) = None /\ cleaned_df (fst (fst r)) = None
  /\ (forall c, slot c (fst (fst r)) = slot c s)
  /\ snd (fst r)
     = [St_error ("Error processing file: " ++ exn_text e
                  ++ ". Please check your CSV format and column names.")]
  /\ snd r = Finished.
Proof.
  cbv zeta. unfold run. cbn [on_upload fst snd set_frames cleaned_df csv_data].
  split; [reflexivity | split; [reflexivity | split; [| split; reflexivity]]].
  intros c. destruct c; reflexivity.
Qed.

(** X16: a run changes at most the insight slot of the button that was
    clicked: every other slot keeps what it held, and the two frames are
    those the upload step left. *)
Theorem click_changes_one_slot (uploaded : option (may_raise DataFrame))
    (clicked : option Chart) (s : Session) (c : Chart) :
  button c clicked = false ->
  let r := script uploaded clicked s in
  slot c (fst (fst r)) = slot c s
  /\ csv_data (fst (fst r)) = csv_data (fst (upload uploaded s))
  /\ cleaned_df (fst (fst r)) = cleaned_df (fst (upload uploaded s)).
Proof.
  intros Hc. cbv zeta. unfold run.
  destruct (cleaned_df (fst (upload uploaded s))) as [df |] eqn:D;
    [destruct (empty df) |]; cbn [fst snd];
    try (split; [apply upload_keeps_slots | split; [reflexivity | exact D]]).
  pose proof (blocks_keep_other_slots charts df clicked c Hc (fst (upload uploaded s))) as S.
  pose proof (blocks_keep_frames charts df clicked (fst (upload uploaded s))) as [F1 F2].
  destruct (blocks charts df clicked (fst (upload uploaded s))) as [[s2 ev] en].
  cbn [fst snd] in *. rewrite S, F1, F2.
  split; [apply upload_keeps_slots | split; [reflexivity | exact D]].
Qed.
Lemma call_posts (name : string) (data : json) :
  List.length (filter is_http_post (fst (ask name data))) <= 1.
Proof.
  destruct (truthy (getenv w "GEMINI_API_KEY" "")) eqn:K.
  - destruct (request_sent_once json_dumps w name data K) as (events & E & N).
    rewrite E. cbn [filter is_http_post]. rewrite (no_post_filter _ N). cbn. lia.
  - unfold generate_insights_from_gemini. rewrite K. cbn. lia.
Qed.

Lemma blocks_posts (df : DataFrame) (clicked : option Chart) (cs : list Chart) :
  NoDup cs ->
  forall s,
    List.length (filter is_http_post (snd (fst (blocks cs df clicked s))))
    <= if existsb (fun c => button c clicked) cs then 1 else 0.
Proof.
  induction cs as [| c cs IH]; intros Hnd s; [cbn; lia |].
  inversion Hnd as [| ? ? Hc Hcs]; subst.
  cbn [chart_blocks existsb].
  destruct (chart_table key_leb c df) as [t |];
    [| cbn; destruct (button c clicked || existsb _ cs); lia].
  match goal with
  | |- context [blocks cs df clicked ?s1] =>
      specialize (IH Hcs s1); destruct (blocks cs df clicked s1) as [[s2 ev] en]
  end.
  cbn [fst snd] in *. rewrite filter_app, length_app.
  destruct (button c clicked) eqn:B; cbn [orb fst].
  - assert (existsb (fun c0 => button c0 clicked) cs = false) as N.
    { destruct (existsb (fun c0 => button c0 clicked) cs) eqn:X; [| reflexivity].
      apply existsb_exists in X. destruct X as (c0 & Hin & B0).
      destruct clicked as [k |]; [| discriminate B]. cbn [button] in *.
      apply chart_eqb_eq in B, B0. subst. contradiction. }
    rewrite N in IH.
    pose proof (call_posts (chart_name c) (to_dict_records (chart_columns c) t)). lia.
  - cbn. exact IH.
Qed.

Lemma charts_nodup : NoDup charts.
Proof.
  unfold charts. repeat constructor; cbn; intros H;
    repeat (destruct H as [H | H]; [discriminate H |]); exact H.
Qed.

Lemma upload_posts (uploaded : option (may_raise DataFrame)) (s : Session) :
  filter is_http_post (snd (upload uploaded s)) = [].
Proof. destruct uploaded as [[e | df] |]; reflexivity. Qed.

(** X17: one run of the script makes at most one request, and none when no
    button was clicked. *)
Theorem one_request_per_run (uploaded : option (may_raise DataFrame))
    (clicked : option Chart) (s : Session) :
  List.length (filter is_http_post (snd (fst (script uploaded clicked s))))
  <= match clicked with Some _ => 1 | None => 0 end.
Proof.
  unfold run.
  destruct (cleaned_df (fst (upload uploaded s))) as [df |];
    [destruct (empty df) |]; cbn [fst snd];
    try (rewrite upload_posts; cbn; destruct clicked; lia).
  pose proof (blocks_posts df clicked charts charts_nodup (fst (upload uploaded s))) as B.
  destruct (blocks charts df clicked (fst (upload uploaded s))) as [[s2 ev] en].
  cbn [fst snd] in *. rewrite filter_app, length_app, upload_posts. cbn [List.length].
  destruct clicked as [k |]; [destruct (existsb _ charts); lia |].
  cbn in B. lia.
Qed.



End Facts.


Lemma click_changes_one_slot_witness :
  slot Sentiment
       (fst (fst (run read_date read_number key_order dumps answering_world
                      (Some (inr sample_upload)) (Some TopLocations) new_session)))
  = [].
Proof.
  exact (proj1 (click_changes_one_slot read_date read_number key_order dumps
                  answering_world (Some (inr sample_upload)) (Some TopLocations)
                  new_session Sentiment eq_refl)).
Defined.




End ScriptFacts.
